(** * Freshness: the produce ledger and the detection interpreter of [app.py]

    A shallow embedding of the two original pieces of logic of the
    application: [update_fresh_count], the find-or-insert rule on the
    spreadsheet ledger, and [detect_and_classify], the loop that turns the
    detector's boxes into prediction records and ledger updates.

    Python integers are unbounded, so they are [Z]. Spreadsheet cells are
    dynamically typed, so a cell holds a [value]. The confidence of a box
    is a finite binary floating point number; the program only compares it
    and prints it, never computes with it, so it is embedded by its exact
    rational value in [Q]. *)

From Stdlib Require Import ZArith QArith String Ascii List Lia.
From stdpp Require Import base list strings gmap pretty.

Open Scope string_scope.
Open Scope list_scope.
Open Scope Z_scope.

(** ** Python values, exceptions and built-ins *)

Inductive exn : Type :=
| TypeError
| IndexError
| ValueError.

Inductive result (A : Type) : Type :=
| Ok (a : A)
| Raise (e : exn).

Arguments Ok {A} a.
Arguments Raise {A} e.

#[global] Instance result_ret : MRet result := fun _ a => Ok a.
#[global] Instance result_bind : MBind result := fun _ _ f m =>
  match m with
  | Ok a => f a
  | Raise e => Raise e
  end.

(** What a cell of the ledger holds: nothing, an integer or a string. These
    are the kinds of value the program writes; a cell of a workbook made
    elsewhere can also hold a float, a boolean or a date, which are not
    represented. *)
Inductive value : Type :=
| VNone
| VInt (n : Z)
| VStr (s : string).

#[global] Instance value_eq_dec : EqDecision value.
Proof. solve_decision. Defined.

(** [v += 1]: defined on integers, a [TypeError] on [None] and on strings. *)
Definition py_iadd1 (v : value) : result value :=
  match v with
  | VInt n => Ok (VInt (n + 1))
  | VNone | VStr _ => Raise TypeError
  end.

(** [l[i]] on a Python list: negative indices count from the end. *)
Definition py_getitem {A : Type} (l : list A) (i : Z) : result A :=
  let len := Z.of_nat (length l) in
  let j := if i <? 0 then i + len else i in
  if (j <? 0) || (len <=? j) then Raise IndexError
  else match l !! Z.to_nat j with
       | Some a => Ok a
       | None => Raise IndexError
       end.

(** [d.get(k, default)] *)
Definition dict_get (d : gmap string Z) (k : string) (default : value) : value :=
  match d !! k with
  | Some n => VInt n
  | None => default
  end.

(** [s.split(sep)] for a one character separator: never the empty list. *)
Fixpoint py_split (sep : ascii) (s : string) : list string :=
  match s with
  | EmptyString => [EmptyString]
  | String c rest =>
      if Ascii.eqb c sep then EmptyString :: py_split sep rest
      else match py_split sep rest with
           | chunk :: chunks => String c chunk :: chunks
           | [] => [String c EmptyString]
           end
  end.

(** [a, b = parts]: a [ValueError] unless there are exactly two parts. *)
Definition unpack2 {A : Type} (parts : list A) : result (A * A) :=
  match parts with
  | [a; b] => Ok (a, b)
  | _ => Raise ValueError
  end.

Definition ascii_upper (c : ascii) : ascii :=
  let n := nat_of_ascii c in
  if ((97 <=? n) && (n <=? 122))%nat then ascii_of_nat (n - 32) else c.

Definition ascii_lower (c : ascii) : ascii :=
  let n := nat_of_ascii c in
  if ((65 <=? n) && (n <=? 90))%nat then ascii_of_nat (n + 32) else c.

Fixpoint string_lower (s : string) : string :=
  match s with
  | EmptyString => EmptyString
  | String c rest => String (ascii_lower c) (string_lower rest)
  end.

(** [s.capitalize()] on ASCII text: first character upper case, the rest
    lower case. *)
Definition py_capitalize (s : string) : string :=
  match s with
  | EmptyString => EmptyString
  | String c rest => String (ascii_upper c) (string_lower rest)
  end.

(** [int(x)] truncates towards zero. *)
Definition py_int (x : Q) : Z := Z.quot (Qnum x) (Z.pos (Qden x)).

(** [x < y] on finite floats is the order of their exact values. *)
Definition float_lt (x y : Q) : bool := negb (Qle_bool y x).

(** Nearest integer to [n / d], ties to the even one. *)
Definition round_half_even (n : Z) (d : positive) : Z :=
  let fl := n / Z.pos d in
  let twice_rem := 2 * (n mod Z.pos d) in
  if twice_rem <? Z.pos d then fl
  else if Z.pos d <? twice_rem then fl + 1
  else if Z.even fl then fl else fl + 1.

Definition two_digits (n : Z) : string :=
  pretty (n / 10) +:+ pretty (n mod 10).

(** [f"{x:.2f}"]: the exact value correctly rounded to two decimals. *)
Definition format_2f (x : Q) : string :=
  let hundredths := round_half_even (100 * Z.abs (Qnum x)) (Qden x) in
  (if Qnum x <? 0 then "-" else "")
  +:+ pretty (hundredths / 100) +:+ "." +:+ two_digits (hundredths mod 100).

(** ** Module level constants of [app.py] *)

Definition label_encoder : list string :=
  ["apple_fresh"; "apple_stale"; "onion_fresh"; "onion_stale";
   "carrot_fresh"; "carrot_stale"; "tomato_fresh"; "tomato_stale"].

Definition expected_life_span : gmap string Z :=
  {[ "apple" := 7; "onion" := 10; "carrot" := 5; "tomato" := 3 ]}.

Definition CONFIDENCE_THRESHOLD : Q := 5 # 10.

(** ** The worksheet *)

(** A row of the sheet: the cells of the five columns the program uses. The
    sheet has the five columns of its header, so that every row the loop
    visits has these cells. *)
Record row : Type := Row {
  col_s_no : value;
  col_product : value;
  col_fresh_count : value;
  col_last_detected : value;
  col_life_span : value
}.

#[global] Instance row_eq_dec : EqDecision row.
Proof. solve_decision. Defined.

(** The sheet is the list of its rows, row 1 (the header) first. *)
Abbreviation worksheet := (list row).

Definition header : row :=
  Row (VStr "S No") (VStr "Product") (VStr "Fresh Count")
      (VStr "Last Detected Time") (VStr "Expected Life Span").

(** The sheet of a new workbook, after the header was appended. *)
Definition new_sheet : worksheet := [header].

(** [sheet.max_row]: 1 on a sheet without cells. *)
Definition max_row (sheet : worksheet) : Z := Z.max 1 (Z.of_nat (length sheet)).

(** [sheet.iter_rows(min_row=2)] *)
Definition iter_rows_from_2 (sheet : worksheet) : list row := drop 1 sheet.

(** ** [update_fresh_count] *)

(** The [for] loop of [update_fresh_count] over the rows below the header.
    [None] is [product_found = False] after the loop; [Some rows'] is the
    rows after the first matching one was written to, where the loop
    breaks. *)
Fixpoint for_rows (product : string) (is_fresh : bool) (lifespan : value)
    (now : string) (rows : list row) : result (option (list row)) :=
  match rows with
  | [] => Ok None
  | r :: rest =>
      if bool_decide (col_product r = VStr product) then
        count ← (if is_fresh then py_iadd1 (col_fresh_count r)
                 else Ok (col_fresh_count r));
        Ok (Some (Row (col_s_no r) (col_product r) count (VStr now) lifespan
                  :: rest))
      else
        found ← for_rows product is_fresh lifespan now rest;
        Ok (option_map (cons r) found)
  end.

(** The first statement of [update_fresh_count]: the value written to the
    lifespan cell. *)
Definition lifespan_of (product : string) (is_fresh : bool) : value :=
  if negb is_fresh then VStr "N/A"
  else dict_get expected_life_span product (VStr "Unknown").

(** [now] is what [datetime.now().strftime(...)] gives in this call: the
    clock is read once, on either path. When the call raises, the sheet is
    as it was before the call. The appended row holds [product] as it is:
    that is what [sheet.append] does for text a cell stores unchanged
    ([cell_text] below); it cuts longer text to 32767 characters and raises
    on a control character, which is not represented here. *)
Definition update_fresh_count (product : string) (is_fresh : bool)
    (now : string) (sheet : worksheet) : result worksheet :=
  let lifespan := lifespan_of product is_fresh in
  found ← for_rows product is_fresh lifespan now (iter_rows_from_2 sheet);
  match found with
  | Some rows' => Ok (take 1 sheet ++ rows')
  | None =>
      let fresh_count := if is_fresh then 1 else 0 in
      let last_detected_time := now in
      Ok (sheet ++ [Row (VInt (max_row sheet)) (VStr product)
                        (VInt fresh_count) (VStr last_detected_time) lifespan])
  end.

(** The sheet after a call, whether it returned or raised. *)
Definition sheet_after (product : string) (is_fresh : bool) (now : string)
    (sheet : worksheet) : worksheet :=
  match update_fresh_count product is_fresh now sheet with
  | Ok sheet' => sheet'
  | Raise _ => sheet
  end.

(** ** The detector's output and the interpreter's records *)

(** One detected object: a row of [result.boxes], read through its three
    views [xyxy], [conf] and [cls]. *)
Record detection : Type := Detection {
  xyxy : Q * Q * Q * Q;
  conf : Q;
  cls : Q
}.

(** One element of [results]. *)
Record yolo_result : Type := YoloResult {
  boxes : list detection
}.

(** The dictionary appended to [predictions]. *)
Record prediction : Type := Prediction {
  Product : string;
  Freshness : string;
  Confidence : string
}.

(** ** The process state and its monad *)

(** What the program can change: the global [sheet], the wall clock (the
    number of times it was read so far) and the error boxes shown by
    [st.error]. *)
Record world : Type := World {
  w_sheet : worksheet;
  w_clock : nat;
  w_errors : list string
}.

(** A computation returns or raises, and leaves a state behind either way. *)
Definition M (A : Type) : Type := world → result A * world.

#[global] Instance M_ret : MRet M := fun _ a w => (Ok a, w).
#[global] Instance M_bind : MBind M := fun _ _ f m w =>
  match m w with
  | (Ok a, w') => f a w'
  | (Raise e, w') => (Raise e, w')
  end.

Definition lift {A : Type} (r : result A) : M A := fun w => (r, w).

(** [st.error(msg)] *)
Definition st_error (msg : string) : M unit := fun w =>
  (Ok tt, World (w_sheet w) (w_clock w) (w_errors w ++ [msg])).

(** ** [detect_and_classify] *)

Section Detector.
Context {Image : Type}.
(** [cv2.imread]: [None] when the file cannot be read or decoded. *)
Variable imread : string → option Image.
(** The pretrained detector, a black box. *)
Variable model : Image → list yolo_result.
(** [clock n] is the formatted time at the [n]-th reading of
    [datetime.now()]. *)
Variable clock : nat → string.

(** The call [update_fresh_count(product, is_fresh)] on the global sheet.
    A call that raises does so before it reads the clock. *)
Definition call_update_fresh_count (product : string) (is_fresh : bool)
    : M unit := fun w =>
  match update_fresh_count product is_fresh (clock (w_clock w)) (w_sheet w) with
  | Ok sheet' => (Ok tt, World sheet' (S (w_clock w)) (w_errors w))
  | Raise e => (Raise e, w)
  end.

(** The body of the inner loop below the confidence test: label, ledger
    update, record. *)
Definition classify_box (predictions : list prediction) (d : detection)
    : M (list prediction) :=
  let confidence := conf d in
  let label_idx := py_int (cls d) in
  predicted_label ← lift (py_getitem label_encoder label_idx);
  '(product, freshness) ← lift (unpack2 (py_split "_" predicted_label));
  let is_fresh := bool_decide (freshness = "fresh") in
  call_update_fresh_count product is_fresh;;
  mret (predictions ++ [Prediction (py_capitalize product)
                                   (py_capitalize freshness)
                                   (format_2f confidence)]).

(** The body of the inner loop, for one box: [continue] on a low
    confidence. *)
Definition for_box (predictions : list prediction) (d : detection)
    : M (list prediction) :=
  let confidence := conf d in
  if float_lt confidence CONFIDENCE_THRESHOLD then mret predictions
  else classify_box predictions d.

Fixpoint for_boxes (predictions : list prediction) (bs : list detection)
    : M (list prediction) :=
  match bs with
  | [] => mret predictions
  | d :: rest =>
      predictions' ← for_box predictions d;
      for_boxes predictions' rest
  end.

Fixpoint for_results (predictions : list prediction)
    (results : list yolo_result) : M (list prediction) :=
  match results with
  | [] => mret predictions
  | result :: rest =>
      predictions' ← for_boxes predictions (boxes result);
      for_results predictions' rest
  end.

Definition detect_and_classify (image_path : string)
    : M (option (list prediction)) :=
  match imread image_path with
  | None =>
      st_error "Error: Image not found.";;
      mret None
  | Some image =>
      let results := model image in
      predictions ← for_results [] results;
      mret (Some predictions)
  end.
End Detector.

(** ** Vocabulary of the properties *)

(** A character [sheet.append] accepts in text: any but the control
    characters other than tab, line feed and carriage return. *)
Definition legal_character (c : ascii) : bool :=
  let n := nat_of_ascii c in
  ((31 <? n) || (n =? 9) || (n =? 10) || (n =? 13))%nat.

(** Text that a cell stores as it is: at most 32767 characters, all of them
    accepted. *)
Definition cell_text (s : string) : Prop :=
  Z.of_nat (String.length s) ≤ 32767
  ∧ forallb legal_character (list_ascii_of_string s) = true.

(** The ledger rows: the rows below the header. *)
Definition ledger_rows (sheet : worksheet) : list row := drop 1 sheet.

(** The first ledger row whose product cell is [product], with its position
    among the ledger rows. *)
Definition find_row (product : string) (sheet : worksheet) : option (nat * row) :=
  list_find (λ r, col_product r = VStr product) (ledger_rows sheet).

(** The value [update_fresh_count] writes to the count cell of a matching
    row. *)
Definition bumped (is_fresh : bool) (v : value) : result value :=
  if is_fresh then py_iadd1 v else Ok v.

(** The row [update_fresh_count] leaves in place of a matching row [r]. *)
Definition touched (product : string) (is_fresh : bool) (now : string)
    (count : value) (r : row) : row :=
  Row (col_s_no r) (col_product r) count (VStr now) (lifespan_of product is_fresh).

(** The row [update_fresh_count] appends for a product without a row. *)
Definition new_row (product : string) (is_fresh : bool) (now : string)
    (sheet : worksheet) : row :=
  Row (VInt (max_row sheet)) (VStr product) (VInt (if is_fresh then 1 else 0))
      (VStr now) (lifespan_of product is_fresh).

(** The product column of the ledger rows. *)
Definition products (sheet : worksheet) : list value :=
  col_product <$> ledger_rows sheet.

(** The sequence number column of the ledger rows. *)
Definition sequence_numbers (sheet : worksheet) : list value :=
  col_s_no <$> ledger_rows sheet.

(** At most one ledger row per product value. *)
Definition one_row_per_product (sheet : worksheet) : Prop := NoDup (products sheet).

(** Every fresh count of the ledger is an integer. *)
Definition counts_are_integers (sheet : worksheet) : Prop :=
  Forall (λ r, ∃ n, col_fresh_count r = VInt n) (ledger_rows sheet).

(** The fresh count recorded for a product: 0 while it has no row. *)
Definition tally (product : string) (sheet : worksheet) : Z :=
  match find_row product sheet with
  | Some (_, r) => match col_fresh_count r with VInt n => n | _ => 0 end
  | None => 0
  end.

(** What one call can do to the sheet: nothing (it raised), write to the
    first matching row, or append a row. *)
Inductive upsert_effect (product : string) (is_fresh : bool) (now : string)
    (sheet : worksheet) : worksheet → Prop :=
| effect_raise i r e :
    find_row product sheet = Some (i, r) →
    is_fresh = true →
    py_iadd1 (col_fresh_count r) = Raise e →
    upsert_effect product is_fresh now sheet sheet
| effect_touch i r count :
    find_row product sheet = Some (i, r) →
    bumped is_fresh (col_fresh_count r) = Ok count →
    upsert_effect product is_fresh now sheet
      (<[S i := touched product is_fresh now count r]> sheet)
| effect_append :
    find_row product sheet = None →
    upsert_effect product is_fresh now sheet
      (sheet ++ [new_row product is_fresh now sheet]).

(** One call of [update_fresh_count]: product, is_fresh, time of the call. *)
Abbreviation upsert_call := (string * bool * string)%type.

(** A sequence of calls, each on the sheet the previous one left. *)
Fixpoint run_upserts (calls : list upsert_call) (sheet : worksheet)
    : result worksheet :=
  match calls with
  | [] => Ok sheet
  | (product, is_fresh, now) :: rest =>
      sheet' ← update_fresh_count product is_fresh now sheet;
      run_upserts rest sheet'
  end.

(** The sheet after the calls [update_fresh_count(product, is_fresh)] of a
    list, made in order, the first at the [n]-th reading of the clock. *)
Fixpoint replay (clock : nat → string) (n : nat) (calls : list (string * bool))
    (sheet : worksheet) : worksheet :=
  match calls with
  | [] => sheet
  | (product, is_fresh) :: rest =>
      replay clock (S n) rest (sheet_after product is_fresh (clock n) sheet)
  end.

(** A record of the interpreter stands for the call made for its box. *)
Definition record_of_call (call : string * bool) (pred : prediction) : Prop :=
  Product pred = py_capitalize call.1
  ∧ call.2 = bool_decide (Freshness pred = "Fresh").

(** What a run of the loops does, from the records [predictions] and the
    state [w]: it makes ledger calls, one after the other, each at the next
    reading of the clock; it shows no error box; and when it returns, it
    returns the records it had with one more record for each call. *)
Definition ledger_effect (clock : nat → string) (predictions : list prediction)
    (w : world) (res : result (list prediction) * world) : Prop :=
  ∃ calls : list (string * bool),
    w_sheet res.2 = replay clock (w_clock w) calls (w_sheet w)
    ∧ w_clock res.2 = (w_clock w + length calls)%nat
    ∧ w_errors res.2 = w_errors w
    ∧ ∀ preds, res.1 = Ok preds →
        ∃ news, preds = predictions ++ news ∧ Forall2 record_of_call calls news.

(** The distinct elements of a list, in the order they first occur. *)
Definition first_seen (l : list string) : list string :=
  foldl (λ seen p, if decide (p ∈ seen) then seen else seen ++ [p]) [] l.

(** The numbers 1, 2, ..., n as cells. *)
Definition numbering (n : nat) : list value :=
  (λ k, VInt (Z.of_nat k)) <$> seq 1 n.

(** A result of the detector without its low confidence boxes. *)
Definition confident_boxes (result : yolo_result) : yolo_result :=
  YoloResult (filter (λ d, float_lt (conf d) CONFIDENCE_THRESHOLD = false)
                     (boxes result)).

(** ** The page, the files and [main] *)

(** What [main] puts on the page, apart from the error boxes, which are in
    the [world]. *)
Inductive widget : Type :=
| StTitle (body : string)
| StWrite (body : string)
| StTable (data : list prediction)
| StSuccess (body : string)
| StWarning (body : string)
| StDownloadButton (label : string) (data : worksheet) (file_name : string)
    (mime : string).

(** The state of one run of the script: the [world] of the interpreter, the
    workbook file [excel_file] if it exists, the temporary files with their
    bytes, and the page. The workbook file is held as a sheet: the sheet it
    was loaded as, or the sheet last passed to [workbook.save]. A load gives
    a saved sheet back as it was as long as its integers are below 2^53 in
    size ([integers_below]): the file keeps 16 significant digits of a
    number. *)
Record run_state : Type := RunState {
  rs_world : world;
  rs_workbook_file : option worksheet;
  rs_temp_files : gmap string string;
  rs_page : list widget
}.

(** [sheet.append(values)] *)
Definition sheet_append (sheet : worksheet) (r : row) : worksheet := sheet ++ [r].

(** The [try] at the top of the script: the sheet of the workbook file, or,
    when there is no such file, the sheet of a new workbook with the header
    appended. *)
Definition load_sheet (file : option worksheet) : worksheet :=
  match file with
  | Some sheet => sheet
  | None => sheet_append [] header
  end.

(** [if predictions:] on what [detect_and_classify] returns: [None] and the
    empty list are false. *)
Definition truthy (predictions : option (list prediction)) : bool :=
  match predictions with
  | Some (_ :: _) => true
  | Some [] | None => false
  end.

Definition st_show (widget_shown : widget) (a : run_state) : run_state :=
  RunState (rs_world a) (rs_workbook_file a) (rs_temp_files a)
           (rs_page a ++ [widget_shown]).

Section Main.
Context {Image : Type}.
(** The decoder of [cv2.imread], on the bytes of a file. *)
Variable decode : string → option Image.
Variable model : Image → list yolo_result.
Variable clock : nat → string.

(** [cv2.imread] on the temporary files. *)
Definition imread_temp (files : gmap string string) (path : string)
    : option Image :=
  files !! path ≫= decode.

(** [main()], given what the uploader holds ([None] without an upload, else
    the bytes of the file) and the name [tempfile] picks. An exception of
    [detect_and_classify] leaves [main] at once. *)
Definition main (uploaded_file : option string) (temp_name : string)
    (a : run_state) : result unit * run_state :=
  let a := st_show (StTitle "Fresh Product Detection with YOLOv8") a in
  let a := st_show (StWrite "Upload an image, and this app will detect fresh and stale products.") a in
  match uploaded_file with
  | None => (Ok tt, a)
  | Some bytes =>
      let image_path := temp_name in
      let a := RunState (rs_world a) (rs_workbook_file a)
                        (<[image_path := bytes]> (rs_temp_files a)) (rs_page a) in
      let a := st_show (StWrite "Processing image...") a in
      match detect_and_classify (imread_temp (rs_temp_files a)) model clock
              image_path (rs_world a) with
      | (Raise e, w') =>
          (Raise e, RunState w' (rs_workbook_file a) (rs_temp_files a) (rs_page a))
      | (Ok predictions, w') =>
          let a := RunState w' (rs_workbook_file a) (rs_temp_files a) (rs_page a) in
          let a :=
            if truthy predictions then
              let a := st_show (StWrite "### Detection Results") a in
              let a := st_show (StTable (default [] predictions)) a in
              let a := RunState (rs_world a) (Some (w_sheet (rs_world a)))
                                (rs_temp_files a) (rs_page a) in
              let a := st_show (StSuccess "Fresh count updated and saved.") a in
              st_show (StDownloadButton "Download Updated Excel Sheet"
                         (w_sheet (rs_world a)) "updated_fresh_count.xlsx"
                         "application/vnd.openxmlformats-officedocument.spreadsheetml.sheet") a
            else
              st_show (StWarning "No objects were detected in the image. Please try again.") a in
          (Ok tt, RunState (rs_world a) (rs_workbook_file a)
                           (delete image_path (rs_temp_files a)) (rs_page a))
      end
  end.

(** One run of the script: the workbook is loaded, or made, and [main] is
    called. [ticks] is the number of readings of the clock before the run. *)
Definition script (file : option worksheet) (temp_files : gmap string string)
    (ticks : nat) (uploaded_file : option string) (temp_name : string)
    : result unit * run_state :=
  main uploaded_file temp_name
       (RunState (World (load_sheet file) ticks []) file temp_files []).

End Main.

(** ** Vocabulary of the further properties *)

(** The calls of a sequence that are for one product. *)
Definition calls_for (product : string) (calls : list upsert_call)
    : list upsert_call :=
  filter (λ c, c.1.1 = product) calls.

(** How many of them were fresh detections. *)
Definition fresh_calls (product : string) (calls : list upsert_call) : nat :=
  length (filter (λ c, c.1.2 = true) (calls_for product calls)).

(** The ledger as the program builds it: a header row, one row per product,
    integer counts, rows numbered from 1. *)
Definition ledger_ok (sheet : worksheet) : Prop :=
  sheet ≠ []
  ∧ one_row_per_product sheet
  ∧ counts_are_integers sheet
  ∧ sequence_numbers sheet = numbering (length (ledger_rows sheet)).

(** A cell the workbook file gives back as it is, as far as numbers go: an
    integer below [bound] in size. *)
Definition cell_below (bound : Z) (v : value) : Prop :=
  match v with
  | VInt n => - bound < n < bound
  | VNone | VStr _ => True
  end.

Definition row_cells (r : row) : list value :=
  [col_s_no r; col_product r; col_fresh_count r; col_last_detected r; col_life_span r].

(** Every integer of the sheet is below [bound] in size, and so is the number
    of its rows. *)
Definition integers_below (bound : Z) (sheet : worksheet) : Prop :=
  Forall (λ r, Forall (cell_below bound) (row_cells r)) sheet
  ∧ Z.of_nat (length sheet) < bound.

Definition file_below (bound : Z) (file : option worksheet) : Prop :=
  match file with
  | Some sheet => integers_below bound sheet
  | None => True
  end.


(** All boxes of the detector's output, in the order the loops visit
    them. *)
Definition all_boxes (results : list yolo_result) : list detection :=
  concat (boxes <$> results).

(** A box that passes the confidence test. *)
Definition confident (d : detection) : Prop :=
  float_lt (conf d) CONFIDENCE_THRESHOLD = false.

#[global] Instance confident_dec d : Decision (confident d).
Proof. unfold confident. apply _. Defined.

(** A box whose class index is one Python accepts for the label table. *)
Definition in_table (d : detection) : Prop :=
  - Z.of_nat (length label_encoder) ≤ py_int (cls d) < Z.of_nat (length label_encoder).

(** The two parts of the label of a box: the lookup and the split of
    [classify_box], without the state. *)
Definition box_label (d : detection) : result (string * string) :=
  predicted_label ← py_getitem label_encoder (py_int (cls d));
  unpack2 (py_split "_" predicted_label).

(** The record [classify_box] builds for a box. *)
Definition box_record (d : detection) : result prediction :=
  '(product, freshness) ← box_label d;
  Ok (Prediction (py_capitalize product) (py_capitalize freshness)
                 (format_2f (conf d))).

(** The ledger call a box leads to, if any. *)
Definition box_call (d : detection) : option (string * bool) :=
  if float_lt (conf d) CONFIDENCE_THRESHOLD then None
  else match box_label d with
       | Ok (product, freshness) => Some (product, bool_decide (freshness = "fresh"))
       | Raise _ => None
       end.

(** The number of boxes the detector gives in one run of the script: none
    without an upload or when the upload does not decode. *)
Definition boxes_of_run {Image : Type} (decode : string → option Image)
    (model : Image → list yolo_result) (run : option string * string) : nat :=
  match run.1 with
  | Some bytes =>
      match decode bytes with
      | Some image => length (all_boxes (model image))
      | None => 0%nat
      end
  | None => 0%nat
  end.


Example ex_format_1 : format_2f (9 # 10) = "0.90". Proof. reflexivity. Qed.
Example ex_format_2 : format_2f (1 # 8) = "0.12". Proof. reflexivity. Qed.
Example ex_format_3 : format_2f (3 # 8) = "0.38". Proof. reflexivity. Qed.
Example ex_format_4 : format_2f (1 # 1) = "1.00". Proof. reflexivity. Qed.
Example ex_format_5 : format_2f (-1 # 1000) = "-0.00". Proof. reflexivity. Qed.
Example ex_format_6 : format_2f (12346 # 1000) = "12.35". Proof. reflexivity. Qed.
Example ex_split : py_split "_" "apple_fresh" = ["apple"; "fresh"]. Proof. reflexivity. Qed.
Example ex_cap : py_capitalize "apple" = "Apple". Proof. reflexivity. Qed.
Example ex_up : update_fresh_count "apple" true "t1" new_sheet =
  Ok [header; Row (VInt 1) (VStr "apple") (VInt 1) (VStr "t1") (VInt 7)].
Proof. reflexivity. Qed.
(** Outside a ledger: a count cell that holds text makes the fresh call
    raise, and a sheet without its header row loses track of its first
    product. *)
Example ex_text_count :
  update_fresh_count "apple" true "t1"
    [header; Row (VInt 1) (VStr "apple") (VStr "three") (VStr "t0") (VInt 7)]
  = Raise TypeError.
Proof. reflexivity. Qed.
Example ex_no_header :
  run_upserts [("apple", true, "t1"); ("apple", true, "t2")] []
  = Ok [Row (VInt 1) (VStr "apple") (VInt 1) (VStr "t1") (VInt 7);
        Row (VInt 1) (VStr "apple") (VInt 1) (VStr "t2") (VInt 7)].
Proof. reflexivity. Qed.
Example ex_detect :
  detect_and_classify (fun _ => Some tt)
    (fun _ => [YoloResult [Detection (0, 0, 1, 1)%Q (9 # 10) (0 # 1);
                           Detection (0, 0, 1, 1)%Q (3 # 10) (1 # 1);
                           Detection (0, 0, 1, 1)%Q (5 # 10) (1 # 1)]])
    (fun n => pretty n) "a.jpg" (World new_sheet 0 [])
  = (Ok (Some [Prediction "Apple" "Fresh" "0.90"; Prediction "Apple" "Stale" "0.50"]),
     World [header; Row (VInt 1) (VStr "apple") (VInt 1) (VStr "1") (VStr "N/A")] 2 []).
Proof. reflexivity. Qed.

(** * Properties *)

(** ** The result monad and the scan of the rows *)

(** The loop finds the first matching row, writes to it, and stops. *)
Lemma for_rows_list_find product is_fresh lifespan now rows :
  for_rows product is_fresh lifespan now rows =
  match list_find (λ r, col_product r = VStr product) rows with
  | None => Ok None
  | Some (i, r) =>
      count ← bumped is_fresh (col_fresh_count r);
      Ok (Some (<[i := Row (col_s_no r) (col_product r) count (VStr now) lifespan]> rows))
  end.
Proof.
  induction rows as [|r rest IH]; [reflexivity|].
  cbn [for_rows list_find]. case_bool_decide as Hm.
  - rewrite decide_True by done. reflexivity.
  - rewrite decide_False by done. rewrite IH.
    destruct (list_find _ rest) as [[i r']|]; [|reflexivity].
    cbn. destruct (bumped is_fresh (col_fresh_count r')); reflexivity.
Qed.

(** [update_fresh_count] as a find-or-insert on the sheet. *)
Lemma update_fresh_count_find product is_fresh now sheet :
  update_fresh_count product is_fresh now sheet =
  match find_row product sheet with
  | None => Ok (sheet ++ [new_row product is_fresh now sheet])
  | Some (i, r) =>
      count ← bumped is_fresh (col_fresh_count r);
      Ok (<[S i := touched product is_fresh now count r]> sheet)
  end.
Proof.
  unfold update_fresh_count, find_row, ledger_rows, iter_rows_from_2.
  rewrite for_rows_list_find.
  destruct (list_find _ (drop 1 sheet)) as [[i r]|] eqn:Hfind; [|reflexivity].
  cbn. destruct (bumped is_fresh (col_fresh_count r)) as [count|e]; [|reflexivity].
  cbn. destruct sheet as [|h rows]; [discriminate|]. reflexivity.
Qed.

Lemma bumped_integer is_fresh v n :
  (is_fresh = true → v = VInt n) →
  bumped is_fresh v = Ok (if is_fresh then VInt (n + 1) else v).
Proof.
  destruct is_fresh; cbn; [|reflexivity].
  intros Hv. rewrite Hv by reflexivity. reflexivity.
Qed.

(** The three cases of the lifespan cell. *)
Lemma lifespan_of_cases product is_fresh :
  (is_fresh = false → lifespan_of product is_fresh = VStr "N/A")
  ∧ (∀ days, is_fresh = true → expected_life_span !! product = Some days →
       lifespan_of product is_fresh = VInt days)
  ∧ (is_fresh = true → expected_life_span !! product = None →
       lifespan_of product is_fresh = VStr "Unknown").
Proof.
  unfold lifespan_of, dict_get. repeat split.
  - intros ->. reflexivity.
  - intros days -> ->. reflexivity.
  - intros -> ->. reflexivity.
Qed.

Lemma ledger_rows_insert (sheet : worksheet) i r :
  ledger_rows (<[S i := r]> sheet) = <[i := r]> (ledger_rows sheet).
Proof. destruct sheet; reflexivity. Qed.

Lemma ledger_rows_app (sheet : worksheet) r :
  sheet ≠ [] → ledger_rows (sheet ++ [r]) = ledger_rows sheet ++ [r].
Proof. destruct sheet; [done|reflexivity]. Qed.

Lemma find_row_lookup product (sheet : worksheet) i r :
  find_row product sheet = Some (i, r) →
  sheet !! S i = Some r ∧ col_product r = VStr product.
Proof.
  unfold find_row, ledger_rows. intros [Hl [Hp _]]%list_find_Some.
  rewrite lookup_drop in Hl. auto.
Qed.

(** Writing a row with the same product over the first match keeps it the
    first match. *)
Lemma find_row_insert product (sheet : worksheet) i r r' :
  find_row product sheet = Some (i, r) →
  col_product r' = VStr product →
  find_row product (<[S i := r']> sheet) = Some (i, r').
Proof.
  unfold find_row. rewrite ledger_rows_insert.
  intros (Hl & _ & Hfirst)%list_find_Some Hp. apply list_find_Some.
  split; [|split; [exact Hp|]].
  - apply list_lookup_insert_eq. eapply lookup_lt_Some, Hl.
  - intros j y Hj Hlt. rewrite list_lookup_insert_ne in Hj by lia. eauto.
Qed.

Lemma update_found product is_fresh now sheet i r n :
  find_row product sheet = Some (i, r) →
  (is_fresh = true → col_fresh_count r = VInt n) →
  update_fresh_count product is_fresh now sheet =
  Ok (<[S i := touched product is_fresh now
                  (if is_fresh then VInt (n + 1) else col_fresh_count r) r]> sheet).
Proof.
  intros Hfind Hcount.
  rewrite update_fresh_count_find, Hfind, (bumped_integer _ _ n Hcount).
  reflexivity.
Qed.

Lemma update_not_found product is_fresh now sheet :
  find_row product sheet = None →
  update_fresh_count product is_fresh now sheet =
  Ok (sheet ++ [new_row product is_fresh now sheet]).
Proof. intros Hfind. rewrite update_fresh_count_find, Hfind. reflexivity. Qed.

Lemma find_row_None product sheet :
  find_row product sheet = None ↔ VStr product ∉ products sheet.
Proof.
  unfold find_row, products. rewrite list_find_None, Forall_forall.
  setoid_rewrite list_elem_of_fmap. split.
  - intros Hno (r & Hp & Hr). by apply (Hno r).
  - intros Hno r Hr Hp. apply Hno. eauto.
Qed.

(** A product without a row is found in the row appended for it. *)
Lemma find_row_app_new product (sheet : worksheet) r :
  sheet ≠ [] →
  find_row product sheet = None →
  col_product r = VStr product →
  find_row product (sheet ++ [r]) = Some (length (ledger_rows sheet), r).
Proof.
  unfold find_row. intros Hne Hnone Hp. rewrite ledger_rows_app by done.
  rewrite list_find_None, Forall_forall in Hnone.
  apply list_find_Some. split; [|split; [exact Hp|]].
  - by rewrite lookup_app_r, Nat.sub_diag.
  - intros j y Hj Hlt. rewrite lookup_app_l in Hj by done.
    apply Hnone. by eapply list_elem_of_lookup_2.
Qed.

Lemma sheet_after_effect product is_fresh now sheet :
  upsert_effect product is_fresh now sheet
    (sheet_after product is_fresh now sheet).
Proof.
  unfold sheet_after. rewrite update_fresh_count_find.
  destruct (find_row product sheet) as [[i r]|] eqn:Hfind.
  - destruct (bumped is_fresh (col_fresh_count r)) as [count|e] eqn:Hb; cbn.
    + by eapply effect_touch.
    + destruct is_fresh; [|discriminate]. by eapply effect_raise.
  - by apply effect_append.
Qed.

Lemma bumped_Ok is_fresh v count :
  bumped is_fresh v = Ok count →
  count = v ∨ ∃ n, is_fresh = true ∧ v = VInt n ∧ count = VInt (n + 1).
Proof.
  destruct is_fresh; cbn.
  - destruct v as [|n|s]; cbn; try discriminate. intros [= <-]. eauto.
  - intros [= <-]. auto.
Qed.

(** ** The ledger upsert *)

(** C1: when the product has a row, the call returns; it writes to that row
    only: the count is one more when [is_fresh] and the same otherwise, the
    time is the time of the call, and the lifespan is "N/A" when not fresh,
    the table's entry when fresh and listed, "Unknown" when fresh and not
    listed. A ledger row has an integer count. *)
Theorem update_existing_row product is_fresh now sheet i r n :
  find_row product sheet = Some (i, r) →
  (is_fresh = true → col_fresh_count r = VInt n) →
  ∃ r',
    update_fresh_count product is_fresh now sheet = Ok (<[S i := r']> sheet)
    ∧ find_row product (<[S i := r']> sheet) = Some (i, r')
    ∧ col_s_no r' = col_s_no r
    ∧ col_product r' = col_product r
    ∧ col_fresh_count r' = (if is_fresh then VInt (n + 1) else col_fresh_count r)
    ∧ col_last_detected r' = VStr now
    ∧ (is_fresh = false → col_life_span r' = VStr "N/A")
    ∧ (∀ days, is_fresh = true → expected_life_span !! product = Some days →
         col_life_span r' = VInt days)
    ∧ (is_fresh = true → expected_life_span !! product = None →
         col_life_span r' = VStr "Unknown").
Proof.
  intros Hfind Hcount.
  pose proof (find_row_lookup _ _ _ _ Hfind) as [_ Hp].
  rewrite update_fresh_count_find, Hfind, (bumped_integer _ _ n Hcount). cbn.
  eexists. split; [reflexivity|].
  split; [by apply (find_row_insert _ _ _ r)|].
  repeat (split; [reflexivity|]). apply lifespan_of_cases.
Qed.

Lemma update_existing_row_witness :
  let sheet := [header; Row (VInt 1) (VStr "pear") (VInt 3) (VStr "t0") (VStr "N/A")] in
  ∃ r',
    update_fresh_count "pear" true "t1" sheet = Ok (<[1%nat := r']> sheet)
    ∧ find_row "pear" (<[1%nat := r']> sheet) = Some (0%nat, r')
    ∧ col_s_no r' = VInt 1
    ∧ col_product r' = VStr "pear"
    ∧ col_fresh_count r' = VInt 4
    ∧ col_last_detected r' = VStr "t1"
    ∧ (true = false → col_life_span r' = VStr "N/A")
    ∧ (∀ days, true = true → expected_life_span !! "pear" = Some days →
         col_life_span r' = VInt days)
    ∧ (true = true → expected_life_span !! "pear" = None →
         col_life_span r' = VStr "Unknown").
Proof.
  intros sheet.
  apply (update_existing_row "pear" true "t1" sheet 0
           (Row (VInt 1) (VStr "pear") (VInt 3) (VStr "t0") (VStr "N/A")) 3).
  - reflexivity.
  - intros _. reflexivity.
Defined.

(** C2: when the product has no row, the call returns the sheet with exactly
    one row appended: count 1 when [is_fresh] and 0 otherwise, the time of
    the call, the lifespan by the same rule; the rows that were there are
    as they were. The product is text a cell stores as it is. *)
Theorem update_new_product product is_fresh now sheet :
  cell_text product →
  find_row product sheet = None →
  ∃ r',
    update_fresh_count product is_fresh now sheet = Ok (sheet ++ [r'])
    ∧ col_product r' = VStr product
    ∧ col_fresh_count r' = VInt (if is_fresh then 1 else 0)
    ∧ col_last_detected r' = VStr now
    ∧ (is_fresh = false → col_life_span r' = VStr "N/A")
    ∧ (∀ days, is_fresh = true → expected_life_span !! product = Some days →
         col_life_span r' = VInt days)
    ∧ (is_fresh = true → expected_life_span !! product = None →
         col_life_span r' = VStr "Unknown").
Proof.
  intros _ Hfind. rewrite update_fresh_count_find, Hfind.
  eexists. split; [reflexivity|].
  repeat (split; [reflexivity|]). apply lifespan_of_cases.
Qed.

Lemma update_new_product_witness :
  let sheet := [header; Row (VInt 1) (VStr "pear") (VInt 3) (VStr "t0") (VStr "N/A")] in
  ∃ r',
    update_fresh_count "onion" false "t1" sheet = Ok (sheet ++ [r'])
    ∧ col_product r' = VStr "onion"
    ∧ col_fresh_count r' = VInt 0
    ∧ col_last_detected r' = VStr "t1"
    ∧ (false = false → col_life_span r' = VStr "N/A")
    ∧ (∀ days, false = true → expected_life_span !! "onion" = Some days →
         col_life_span r' = VInt days)
    ∧ (false = true → expected_life_span !! "onion" = None →
         col_life_span r' = VStr "Unknown").
Proof.
  intros sheet. apply (update_new_product "onion" false "t1" sheet).
  - split; [cbn; lia|reflexivity].
  - reflexivity.
Defined.

(** Every row is still there after a call, with its product and number; its
    count is the same, or one more when the call was a fresh detection of its
    product. *)
Lemma sheet_after_row product is_fresh now (sheet : worksheet) i r :
  sheet !! i = Some r →
  ∃ r', sheet_after product is_fresh now sheet !! i = Some r'
    ∧ col_s_no r' = col_s_no r
    ∧ col_product r' = col_product r
    ∧ (col_fresh_count r' = col_fresh_count r
       ∨ ∃ n, col_fresh_count r = VInt n ∧ col_fresh_count r' = VInt (n + 1)
              ∧ col_product r = VStr product ∧ is_fresh = true).
Proof.
  intros Hi.
  destruct (sheet_after_effect product is_fresh now sheet)
    as [j rj e Hfind _ _ | j rj count Hfind Hb | Hfind].
  - exists r. auto.
  - apply find_row_lookup in Hfind as [Hj Hp].
    destruct (decide (i = S j)) as [->|Hne].
    + assert (rj = r) as -> by congruence.
      eexists. split; [apply list_lookup_insert_eq; by eapply lookup_lt_Some|].
      do 2 (split; [reflexivity|]). cbn.
      apply bumped_Ok in Hb as [->|(n & -> & -> & ->)]; [by left|].
      right. by exists n.
    + exists r. rewrite list_lookup_insert_ne by done. auto.
  - exists r. rewrite lookup_app_l by (by eapply lookup_lt_Some). auto.
Qed.

Lemma products_insert (sheet : worksheet) i r r' :
  sheet !! S i = Some r →
  col_product r' = col_product r →
  products (<[S i := r']> sheet) = products sheet.
Proof.
  intros Hi Hp. unfold products. rewrite ledger_rows_insert, list_fmap_insert, Hp.
  apply list_insert_id. unfold ledger_rows.
  rewrite list_lookup_fmap, lookup_drop. cbn [Nat.add]. by rewrite Hi.
Qed.

(** What every call keeps, every sequence of calls keeps. *)
Lemma replay_preserves (P : worksheet → Prop) clock calls :
  (∀ product is_fresh now sheet, P sheet → P (sheet_after product is_fresh now sheet)) →
  ∀ n sheet, P sheet → P (replay clock n calls sheet).
Proof.
  intros Hstep. induction calls as [|[product is_fresh] calls IH]; intros n sheet HP.
  - exact HP.
  - cbn. apply IH, Hstep, HP.
Qed.

Lemma sheet_after_one_row_per_product product is_fresh now sheet :
  one_row_per_product sheet →
  one_row_per_product (sheet_after product is_fresh now sheet).
Proof.
  unfold one_row_per_product. intros Hone.
  destruct (sheet_after_effect product is_fresh now sheet)
    as [j rj e Hfind _ _ | j rj count Hfind Hb | Hfind].
  - done.
  - apply find_row_lookup in Hfind as [Hj _].
    by rewrite (products_insert _ _ rj).
  - destruct sheet as [|h rows]; [apply NoDup_nil_2|].
    unfold products in *. rewrite ledger_rows_app, fmap_app by done.
    apply NoDup_app. split; [done|]. split; [|apply NoDup_singleton].
    intros v Hv ->%list_elem_of_singleton. by apply find_row_None in Hfind.
Qed.

(** C5: a call keeps the ledger at one row per product, whatever the product
    and [is_fresh], and so does every sequence of calls, which is all the
    program does to the sheet; and a call deletes no row: each row is still
    at its place, with its product. The products are text a cell stores as
    it is. *)
Theorem one_row_per_product_preserved product is_fresh now sheet :
  cell_text product →
  one_row_per_product sheet →
  one_row_per_product (sheet_after product is_fresh now sheet)
  ∧ (∀ clock n calls,
       Forall (λ call, cell_text call.1) calls →
       one_row_per_product (replay clock n calls sheet))
  ∧ (length sheet ≤ length (sheet_after product is_fresh now sheet))%nat
  ∧ ∀ i r, sheet !! i = Some r →
      ∃ r', sheet_after product is_fresh now sheet !! i = Some r'
            ∧ col_product r' = col_product r.
Proof.
  intros _ Hone. split; [|split; [|split]].
  - by apply sheet_after_one_row_per_product.
  - intros clock n calls _.
    apply (replay_preserves one_row_per_product); [|done].
    intros. by apply sheet_after_one_row_per_product.
  - destruct (sheet_after_effect product is_fresh now sheet); [done|..].
    + by rewrite length_insert.
    + rewrite length_app. lia.
  - intros i r Hi.
    destruct (sheet_after_row product is_fresh now sheet i r Hi) as (r' & ? & _ & ? & _).
    eauto.
Qed.

Lemma one_row_per_product_preserved_witness :
  let sheet := [header; Row (VInt 1) (VStr "apple") (VInt 3) (VStr "t0") (VInt 7);
                Row (VInt 2) (VStr "onion") (VInt 0) (VStr "t0") (VStr "N/A")] in
  one_row_per_product (sheet_after "carrot" true "t1" sheet)
  ∧ (∀ clock n calls,
       Forall (λ call, cell_text call.1) calls →
       one_row_per_product (replay clock n calls sheet))
  ∧ (length sheet ≤ length (sheet_after "carrot" true "t1" sheet))%nat
  ∧ ∀ i r, sheet !! i = Some r →
      ∃ r', sheet_after "carrot" true "t1" sheet !! i = Some r'
            ∧ col_product r' = col_product r.
Proof.
  intros sheet. apply (one_row_per_product_preserved "carrot" true "t1" sheet).
  - split; [cbn; lia|reflexivity].
  - unfold one_row_per_product.
    refine (bool_decide_unpack (NoDup (products sheet)) _). vm_compute. exact I.
Defined.

(** C7: a call lowers no count. The count of a row after a call is its
    count before, or that count plus one; it is more only when the call was
    for the product of that row with [is_fresh] true. *)
Theorem fresh_count_monotone product is_fresh now (sheet : worksheet) i r :
  sheet !! i = Some r →
  ∃ r', sheet_after product is_fresh now sheet !! i = Some r'
    ∧ (col_fresh_count r' = col_fresh_count r
       ∨ ∃ n, col_fresh_count r = VInt n ∧ col_fresh_count r' = VInt (n + 1))
    ∧ (∀ a, col_fresh_count r = VInt a →
         ∃ b, col_fresh_count r' = VInt b ∧ a ≤ b)
    ∧ (col_fresh_count r' ≠ col_fresh_count r →
         col_product r = VStr product ∧ is_fresh = true).
Proof.
  intros Hi.
  destruct (sheet_after_row product is_fresh now sheet i r Hi)
    as (r' & Hi' & _ & _ & [Hsame | (n & Hn & Hn' & Hp & Hf)]).
  - exists r'. split; [done|]. split; [by left|]. split; [|done].
    intros a Ha. exists a. split; [congruence|lia].
  - exists r'. split; [done|]. split; [right; eauto|]. split; [|done].
    intros a Ha. exists (n + 1). split; [done|]. assert (a = n) by congruence. lia.
Qed.

Lemma fresh_count_monotone_witness :
  let sheet := [header; Row (VInt 1) (VStr "apple") (VInt 3) (VStr "t0") (VInt 7);
                Row (VInt 2) (VStr "onion") (VInt 0) (VStr "t0") (VStr "N/A")] in
  let r := Row (VInt 1) (VStr "apple") (VInt 3) (VStr "t0") (VInt 7) in
  ∃ r', sheet_after "apple" true "t1" sheet !! 1%nat = Some r'
    ∧ (col_fresh_count r' = col_fresh_count r
       ∨ ∃ n, col_fresh_count r = VInt n ∧ col_fresh_count r' = VInt (n + 1))
    ∧ (∀ a, col_fresh_count r = VInt a →
         ∃ b, col_fresh_count r' = VInt b ∧ a ≤ b)
    ∧ (col_fresh_count r' ≠ col_fresh_count r →
         col_product r = VStr "apple" ∧ true = true).
Proof.
  intros sheet r. apply (fresh_count_monotone "apple" true "t1" sheet 1 r).
  reflexivity.
Defined.

(** C6: two calls in a row for one product, both fresh, return; afterwards
    the row of the product has a count two above the count before the first
    call (0 when the product had no row) and the time of the second call.
    The product is text a cell stores as it is. *)
Theorem upsert_twice_fresh product t1 t2 (sheet : worksheet) :
  cell_text product →
  sheet ≠ [] →
  (∀ i r, find_row product sheet = Some (i, r) → ∃ n, col_fresh_count r = VInt n) →
  ∃ sheet1 sheet2 i r2,
    update_fresh_count product true t1 sheet = Ok sheet1
    ∧ update_fresh_count product true t2 sheet1 = Ok sheet2
    ∧ find_row product sheet2 = Some (i, r2)
    ∧ col_fresh_count r2 = VInt (tally product sheet + 2)
    ∧ col_last_detected r2 = VStr t2.
Proof.
  intros _ Hne Hint. unfold tally.
  destruct (find_row product sheet) as [[i r]|] eqn:Hfind.
  - destruct (Hint i r eq_refl) as [n Hn]. rewrite Hn.
    pose proof (find_row_lookup _ _ _ _ Hfind) as [_ Hp].
    set (r1 := touched product true t1 (VInt (n + 1)) r).
    set (r2 := touched product true t2 (VInt (n + 1 + 1)) r1).
    assert (find_row product (<[S i := r1]> sheet) = Some (i, r1)) as Hfind1
      by (by apply (find_row_insert _ _ _ r)).
    exists (<[S i := r1]> sheet), (<[S i := r2]> (<[S i := r1]> sheet)), i, r2.
    split; [by apply (update_found product true t1 sheet i r n)|].
    split; [by apply (update_found product true t2 _ i r1 (n + 1))|].
    split; [by apply (find_row_insert _ _ _ r1)|].
    split; [cbn; f_equal; lia|reflexivity].
  - set (r1 := new_row product true t1 sheet).
    set (r2 := touched product true t2 (VInt (1 + 1)) r1).
    assert (find_row product (sheet ++ [r1]) = Some (length (ledger_rows sheet), r1))
      as Hfind1 by (by apply find_row_app_new).
    exists (sheet ++ [r1]), (<[S (length (ledger_rows sheet)) := r2]> (sheet ++ [r1])),
      (length (ledger_rows sheet)), r2.
    split; [by apply update_not_found|].
    split; [by apply (update_found product true t2 _ _ r1 1)|].
    split; [by apply (find_row_insert _ _ _ r1)|].
    split; reflexivity.
Qed.

Lemma upsert_twice_fresh_witness :
  let sheet := [header; Row (VInt 1) (VStr "apple") (VInt 3) (VStr "t0") (VInt 7)] in
  ∃ sheet1 sheet2 i r2,
    update_fresh_count "apple" true "t1" sheet = Ok sheet1
    ∧ update_fresh_count "apple" true "t2" sheet1 = Ok sheet2
    ∧ find_row "apple" sheet2 = Some (i, r2)
    ∧ col_fresh_count r2 = VInt 5
    ∧ col_last_detected r2 = VStr "t2".
Proof.
  intros sheet. apply (upsert_twice_fresh "apple" "t1" "t2" sheet).
  - split; [cbn; lia|reflexivity].
  - discriminate.
  - intros i r [= <- <-]. exists 3. reflexivity.
Defined.

(** ** Sequence numbers *)

Lemma numbering_snoc n :
  numbering (S n) = numbering n ++ [VInt (Z.of_nat (S n))].
Proof. unfold numbering. by rewrite seq_S, fmap_app. Qed.

Lemma sequence_numbers_insert (sheet : worksheet) i r r' :
  sheet !! S i = Some r →
  col_s_no r' = col_s_no r →
  sequence_numbers (<[S i := r']> sheet) = sequence_numbers sheet.
Proof.
  intros Hi Hp. unfold sequence_numbers.
  rewrite ledger_rows_insert, list_fmap_insert, Hp.
  apply list_insert_id. unfold ledger_rows.
  rewrite list_lookup_fmap, lookup_drop. cbn [Nat.add]. by rewrite Hi.
Qed.

Lemma max_row_length (sheet : worksheet) :
  sheet ≠ [] → max_row sheet = Z.of_nat (length sheet).
Proof. unfold max_row. destruct sheet; [done|]. cbn [length]. lia. Qed.

Lemma counts_are_integers_insert (sheet : worksheet) i r :
  counts_are_integers sheet →
  (∃ n, col_fresh_count r = VInt n) →
  counts_are_integers (<[S i := r]> sheet).
Proof.
  unfold counts_are_integers. rewrite ledger_rows_insert. intros Hall Hr.
  by apply Forall_insert.
Qed.

(** The ledger as the calls so far built it: a header, the products seen in
    the order they were first seen, numbered from 1, with integer counts. *)
Lemma upsert_keeps_ledger product is_fresh now (sheet : worksheet) seen :
  sheet ≠ [] →
  products sheet = VStr <$> seen →
  sequence_numbers sheet = numbering (length seen) →
  counts_are_integers sheet →
  ∃ sheet',
    update_fresh_count product is_fresh now sheet = Ok sheet'
    ∧ sheet' ≠ []
    ∧ products sheet' = VStr <$> (if decide (product ∈ seen) then seen else seen ++ [product])
    ∧ sequence_numbers sheet' =
        numbering (length (if decide (product ∈ seen) then seen else seen ++ [product]))
    ∧ counts_are_integers sheet'.
Proof.
  intros Hne Hprod Hnum Hint.
  destruct (find_row product sheet) as [[i r]|] eqn:Hfind.
  - pose proof (find_row_lookup _ _ _ _ Hfind) as [Hi Hp].
    assert (∃ n, col_fresh_count r = VInt n) as [n Hn].
    { unfold counts_are_integers in Hint. rewrite Forall_forall in Hint.
      apply Hint. unfold ledger_rows. apply list_elem_of_lookup. exists i.
      by rewrite lookup_drop. }
    assert (product ∈ seen) as Hseen.
    { assert (VStr product ∈ products sheet) as Hin.
      { unfold products, ledger_rows. apply list_elem_of_fmap. exists r.
        split; [done|]. apply list_elem_of_lookup. exists i. by rewrite lookup_drop. }
      rewrite Hprod in Hin. apply list_elem_of_fmap in Hin as (p & [= ->] & Hin). done. }
    rewrite decide_True by done.
    eexists. split; [by apply (update_found product is_fresh now sheet i r n)|].
    split; [by destruct sheet|].
    split; [by rewrite (products_insert _ _ r)|].
    split; [by rewrite (sequence_numbers_insert _ _ r)|].
    apply counts_are_integers_insert; [done|]. cbn. destruct is_fresh; eauto.
  - assert (product ∉ seen) as Hseen.
    { apply find_row_None in Hfind. rewrite Hprod in Hfind.
      intros Hin. apply Hfind. by apply list_elem_of_fmap_2. }
    rewrite decide_False by done.
    eexists. split; [by apply update_not_found|].
    split; [by destruct sheet|].
    unfold products, sequence_numbers, counts_are_integers in *.
    rewrite ledger_rows_app by done. rewrite !fmap_app, Hprod, Hnum.
    split; [reflexivity|]. split.
    + rewrite length_app, Nat.add_1_r, numbering_snoc. cbn. do 3 f_equal.
      rewrite max_row_length by done.
      assert (length seen = length (ledger_rows sheet)) as ->.
      { rewrite <- (length_fmap VStr seen), <- Hprod. by rewrite length_fmap. }
      unfold ledger_rows. rewrite length_drop. destruct sheet; [done|]. cbn. lia.
    + apply Forall_app. split; [done|]. apply Forall_singleton. cbn. eauto.
Qed.

Lemma run_upserts_ledger calls : ∀ (sheet : worksheet) seen,
  sheet ≠ [] →
  products sheet = VStr <$> seen →
  sequence_numbers sheet = numbering (length seen) →
  counts_are_integers sheet →
  let seen' := foldl (λ seen p, if decide (p ∈ seen) then seen else seen ++ [p])
                     seen (calls.*1.*1) in
  ∃ sheet',
    run_upserts calls sheet = Ok sheet'
    ∧ sheet' ≠ []
    ∧ products sheet' = VStr <$> seen'
    ∧ sequence_numbers sheet' = numbering (length seen')
    ∧ counts_are_integers sheet'.
Proof.
  induction calls as [|[[product is_fresh] now] calls IH]; intros sheet seen Hne Hp Hn Hc.
  - exists sheet. auto.
  - destruct (upsert_keeps_ledger product is_fresh now sheet seen Hne Hp Hn Hc)
      as (sheet1 & Hup & Hne1 & Hp1 & Hn1 & Hc1).
    cbn. rewrite Hup. cbn. by apply IH.
Qed.

Lemma first_seen_from_spec l : ∀ seen,
  NoDup seen →
  let seen' := foldl (λ seen p, if decide (p ∈ seen) then seen else seen ++ [p]) seen l in
  NoDup seen' ∧ ∀ p : string, p ∈ seen' ↔ p ∈ seen ∨ p ∈ l.
Proof.
  induction l as [|q l IH]; intros seen Hnd; cbn.
  - split; [done|]. intros p. rewrite elem_of_nil. tauto.
  - case_decide as Hq.
    + destruct (IH seen Hnd) as [Hnd' Hin]. split; [done|].
      intros p. rewrite Hin, elem_of_cons. split; [tauto|].
      intros [?|[->|?]]; auto.
    + assert (NoDup (seen ++ [q])) as Hnd1.
      { apply NoDup_app. split; [done|]. split; [|apply NoDup_singleton].
        by intros p Hp ->%list_elem_of_singleton. }
      destruct (IH (seen ++ [q]) Hnd1) as [Hnd' Hin]. split; [done|].
      intros p. rewrite Hin, elem_of_app, list_elem_of_singleton, elem_of_cons.
      tauto.
Qed.

(** C10: from the new sheet (header only), any sequence of calls returns,
    and leaves one ledger row per distinct product, in the order the products
    were first seen, numbered 1, 2, ..., n in row order. The next product
    without a row is appended with the row count of the sheet, header
    included, as its number, which is n + 1. The products are text a cell
    stores as it is. *)
Theorem sequence_numbers_count_up (calls : list upsert_call) :
  Forall cell_text (calls.*1.*1) →
  let seen := first_seen (calls.*1.*1) in
  ∃ sheet',
    run_upserts calls new_sheet = Ok sheet'
    ∧ NoDup seen
    ∧ (∀ p, p ∈ seen ↔ p ∈ calls.*1.*1)
    ∧ products sheet' = VStr <$> seen
    ∧ sequence_numbers sheet' = numbering (length seen)
    ∧ ∀ product is_fresh now,
        cell_text product →
        find_row product sheet' = None →
        ∃ r', update_fresh_count product is_fresh now sheet' = Ok (sheet' ++ [r'])
              ∧ col_s_no r' = VInt (Z.of_nat (length sheet'))
              ∧ col_s_no r' = VInt (Z.of_nat (S (length seen))).
Proof.
  intros _ seen. subst seen. unfold first_seen.
  destruct (run_upserts_ledger calls new_sheet []) as (sheet' & Hrun & Hne & Hp & Hn & _);
    [done|reflexivity|reflexivity|apply Forall_nil_2|].
  destruct (first_seen_from_spec (calls.*1.*1) [] (NoDup_nil_2)) as [Hnd Hin].
  exists sheet'. split; [done|]. split; [done|].
  split; [intros p; rewrite (Hin p), elem_of_nil; tauto|].
  do 2 (split; [done|]).
  intros product is_fresh now _ Hfind.
  exists (new_row product is_fresh now sheet').
  split; [by apply update_not_found|]. cbn.
  rewrite max_row_length by done. split; [done|]. do 2 f_equal.
  rewrite <- (length_fmap VStr), <- Hp. unfold products. rewrite length_fmap.
  unfold ledger_rows. rewrite length_drop. destruct sheet'; [done|]. cbn. lia.
Qed.

Lemma sequence_numbers_count_up_witness :
  let calls := [("apple", true, "t1"); ("onion", false, "t2"); ("apple", true, "t3")] in
  ∃ sheet',
    run_upserts calls new_sheet = Ok sheet'
    ∧ products sheet' = [VStr "apple"; VStr "onion"]
    ∧ sequence_numbers sheet' = [VInt 1; VInt 2]
    ∧ ∃ r', update_fresh_count "carrot" true "t4" sheet' = Ok (sheet' ++ [r'])
            ∧ col_s_no r' = VInt 3.
Proof.
  intros calls.
  destruct (sequence_numbers_count_up calls) as (sheet' & Hrun & _ & _ & Hp & Hn & Hnew).
  { repeat (constructor; [split; [cbn; lia|reflexivity]|]). constructor. }
  exists sheet'. do 3 (split; [assumption|]).
  destruct (Hnew "carrot" true "t4") as (r' & Hup & _ & Hno).
  - split; [cbn; lia|reflexivity].
  - apply find_row_None. rewrite Hp.
    refine (bool_decide_unpack (VStr "carrot" ∉ VStr <$> first_seen (calls.*1.*1)) _).
    vm_compute. exact I.
  - exists r'. split; assumption.
Defined.

(** ** The detection interpreter *)

Lemma float_lt_true x y : float_lt x y = true ↔ (x < y)%Q.
Proof.
  unfold float_lt. rewrite negb_true_iff, <- not_true_iff_false, Qle_bool_iff.
  split; [apply Qnot_le_lt|apply Qlt_not_le].
Qed.

Lemma float_lt_false x y : float_lt x y = false ↔ (y <= x)%Q.
Proof. unfold float_lt. by rewrite negb_false_iff, Qle_bool_iff. Qed.

Lemma py_getitem_elem {A : Type} (l : list A) i a :
  py_getitem l i = Ok a → a ∈ l.
Proof.
  unfold py_getitem. destruct (_ || _); [discriminate|].
  destruct (l !! _) eqn:Hl; [|discriminate].
  intros [= <-]. by eapply list_elem_of_lookup_2.
Qed.

(** One turn of the inner loop: the box is skipped, or an exception leaves
    the state as it is, or the ledger call returns and one record is added. *)
Lemma for_box_cases clock predictions d w :
  for_box clock predictions d w = (Ok predictions, w)
  ∨ (∃ e, for_box clock predictions d w = (Raise e, w))
  ∨ (∃ product freshness sheet',
       let is_fresh := bool_decide (py_capitalize freshness = "Fresh") in
       update_fresh_count product is_fresh (clock (w_clock w)) (w_sheet w) = Ok sheet'
       ∧ for_box clock predictions d w =
           (Ok (predictions ++ [Prediction (py_capitalize product)
                                           (py_capitalize freshness)
                                           (format_2f (conf d))]),
            World sheet' (S (w_clock w)) (w_errors w))).
Proof.
  unfold for_box. destruct (float_lt _ _); [by left|]. right.
  unfold classify_box, mbind, M_bind, lift.
  destruct (py_getitem label_encoder (py_int (cls d))) as [label|e] eqn:Hlabel;
    [|left; by exists e].
  apply py_getitem_elem in Hlabel. unfold label_encoder in Hlabel.
  repeat (apply elem_of_cons in Hlabel as [->|Hlabel]);
    [..|by apply elem_of_nil in Hlabel].
  all: cbn -[update_fresh_count format_2f]; unfold call_update_fresh_count.
  all: match goal with
       | |- context [update_fresh_count ?p (bool_decide (?fr = "fresh")) ?t ?s] =>
           destruct (update_fresh_count p (bool_decide (fr = "fresh")) t s)
             as [sheet'|e] eqn:Hup;
           [right; exists p, fr, sheet'; split; [exact Hup|reflexivity]
           |left; by exists e]
       end.
Qed.

Lemma replay_app clock calls1 : ∀ n calls2 sheet,
  replay clock n (calls1 ++ calls2) sheet =
  replay clock (n + length calls1) calls2 (replay clock n calls1 sheet).
Proof.
  induction calls1 as [|[product is_fresh] calls1 IH]; intros n calls2 sheet; cbn.
  - by rewrite Nat.add_0_r.
  - rewrite IH. f_equal. lia.
Qed.

Lemma for_box_effect clock predictions d w :
  ledger_effect clock predictions w (for_box clock predictions d w).
Proof.
  destruct (for_box_cases clock predictions d w)
    as [-> | [[e ->] | (product & freshness & sheet' & Hup & ->)]].
  - exists []. cbn. rewrite Nat.add_0_r. do 3 (split; [done|]).
    intros preds [= <-]. exists []. by rewrite app_nil_r.
  - exists []. cbn. rewrite Nat.add_0_r. by do 3 (split; [done|]).
  - exists [(product, bool_decide (py_capitalize freshness = "Fresh"))].
    cbn -[update_fresh_count]. unfold sheet_after. rewrite Hup.
    split; [done|]. split; [lia|]. split; [done|].
    intros preds [= <-]. eexists. split; [reflexivity|].
    constructor; [by split|constructor].
Qed.

(** The effect of a first part that returned [predictions1] in state [w1],
    followed by the effect of the rest from there. *)
Lemma ledger_effect_then clock predictions w predictions1 w1 res :
  ledger_effect clock predictions w (Ok predictions1, w1) →
  ledger_effect clock predictions1 w1 res →
  ledger_effect clock predictions w res.
Proof.
  intros (calls1 & Hs1 & Hc1 & He1 & Hp1) (calls2 & Hs2 & Hc2 & He2 & Hp2).
  cbn in *. exists (calls1 ++ calls2).
  rewrite replay_app, <- Hs1, <- Hc1, length_app.
  split; [done|]. split; [lia|]. split; [congruence|].
  intros preds Hres. destruct (Hp1 _ eq_refl) as (news1 & -> & HF1).
  destruct (Hp2 _ Hres) as (news2 & -> & HF2).
  exists (news1 ++ news2). split; [by rewrite app_assoc|by apply Forall2_app].
Qed.

Lemma for_boxes_effect clock bs : ∀ predictions w,
  ledger_effect clock predictions w (for_boxes clock predictions bs w).
Proof.
  induction bs as [|d bs IH]; intros predictions w.
  - exists []. cbn. rewrite Nat.add_0_r. do 3 (split; [done|]).
    intros preds [= <-]. exists []. by rewrite app_nil_r.
  - cbn [for_boxes]. unfold mbind, M_bind.
    pose proof (for_box_effect clock predictions d w) as Hbox.
    destruct (for_box clock predictions d w) as [[predictions1|e] w1].
    + eapply ledger_effect_then; [exact Hbox|apply IH].
    + exact Hbox.
Qed.

Lemma for_results_effect clock results : ∀ predictions w,
  ledger_effect clock predictions w (for_results clock predictions results w).
Proof.
  induction results as [|result results IH]; intros predictions w.
  - exists []. cbn. rewrite Nat.add_0_r. do 3 (split; [done|]).
    intros preds [= <-]. exists []. by rewrite app_nil_r.
  - cbn [for_results]. unfold mbind, M_bind.
    pose proof (for_boxes_effect clock (boxes result) predictions w) as Hboxes.
    destruct (for_boxes clock predictions (boxes result) w) as [[predictions1|e] w1].
    + eapply ledger_effect_then; [exact Hboxes|apply IH].
    + exact Hboxes.
Qed.

(** A confidence that is 0.9 to within half a hundredth prints as "0.90":
    the rational 9/10 itself, and the binary floats next to it. *)
Lemma format_2f_090 (c : Q) :
  (895 # 1000 < c)%Q → (c < 905 # 1000)%Q → format_2f c = "0.90".
Proof.
  destruct c as [n d]. unfold Qlt. cbn [Qnum Qden]. intros Hlo Hhi.
  unfold format_2f. cbn [Qnum Qden]. rewrite Z.abs_eq by lia.
  assert (round_half_even (100 * n) d = 90) as ->.
  { unfold round_half_even.
    pose proof (Z.div_mod (100 * n) (Z.pos d) ltac:(lia)) as Hdm.
    pose proof (Z.mod_pos_bound (100 * n) (Z.pos d) ltac:(lia)) as Hr.
    set (q := 100 * n / Z.pos d) in *. set (r := (100 * n) mod Z.pos d) in *.
    assert (q = 89 ∨ q = 90) as [Hq|Hq] by nia.
    - rewrite Hq in *. destruct (2 * r <? Z.pos d) eqn:H1; [apply Z.ltb_lt in H1; lia|].
      destruct (Z.pos d <? 2 * r) eqn:H2; [reflexivity|apply Z.ltb_ge in H2; lia].
    - rewrite Hq in *. destruct (2 * r <? Z.pos d) eqn:H1; [reflexivity|].
      apply Z.ltb_ge in H1. lia. }
  replace (n <? 0) with false by (symmetry; apply Z.ltb_ge; lia).
  reflexivity.
Qed.

(** C3: a box whose confidence is below the threshold leaves the records and
    the state as they are: no record, no ledger call. A box at or above the
    threshold goes on to the label, the ledger call and the record, and when
    that returns there is one more record, carrying its confidence. So the
    function does on the detector's output what it does on that output
    without its low confidence boxes. *)
Theorem low_confidence_discarded {Image : Type} (imread : string → option Image)
    (model : Image → list yolo_result) (clock : nat → string) :
  (∀ predictions d w,
     (conf d < CONFIDENCE_THRESHOLD)%Q →
     for_box clock predictions d w = (Ok predictions, w))
  ∧ (∀ predictions d w,
       (CONFIDENCE_THRESHOLD <= conf d)%Q →
       for_box clock predictions d w = classify_box clock predictions d w
       ∧ ∀ preds' w', for_box clock predictions d w = (Ok preds', w') →
           ∃ product freshness,
             preds' = predictions ++ [Prediction product freshness (format_2f (conf d))]
             ∧ w_clock w' = S (w_clock w))
  ∧ (∀ image_path w,
       detect_and_classify imread model clock image_path w =
       detect_and_classify imread (λ image, confident_boxes <$> model image)
                           clock image_path w).
Proof.
  split; [|split].
  - intros predictions d w Hlow. unfold for_box.
    apply float_lt_true in Hlow. by rewrite Hlow.
  - intros predictions d w Hhigh. apply float_lt_false in Hhigh.
    split; [unfold for_box; by rewrite Hhigh|].
    intros preds' w' Hrun.
    destruct (for_box_cases clock predictions d w)
      as [Hskip | [[e He] | (product & freshness & sheet' & _ & Hemit)]].
    + exfalso. revert Hskip. unfold for_box. rewrite Hhigh.
      unfold classify_box, mbind, M_bind, lift.
      destruct (py_getitem label_encoder (py_int (cls d))) as [label|] eqn:Hl;
        [|discriminate].
      destruct (unpack2 (py_split "_" label)) as [[product freshness]|];
        [|discriminate].
      unfold call_update_fresh_count.
      destruct (update_fresh_count _ _ _ _); [|discriminate].
      unfold mret, M_ret. intros [= Happ _].
      apply (f_equal length) in Happ. rewrite length_app in Happ. cbn in Happ. lia.
    + congruence.
    + rewrite Hemit in Hrun. injection Hrun as <- <-. eauto.
  - intros image_path w. unfold detect_and_classify.
    destruct (imread image_path) as [image|]; [|reflexivity].
    cbn zeta. unfold mbind, M_bind.
    enough (∀ results predictions w,
      for_results clock predictions (confident_boxes <$> results) w =
      for_results clock predictions results w) as -> by reflexivity.
    clear. intros results. induction results as [|result results IH]; [reflexivity|].
    intros predictions w. cbn [for_results fmap list_fmap]. unfold mbind, M_bind.
    assert (∀ bs predictions w,
      for_boxes clock predictions
        (filter (λ d, float_lt (conf d) CONFIDENCE_THRESHOLD = false) bs) w =
      for_boxes clock predictions bs w) as Hboxes.
    { clear. intros bs. induction bs as [|d bs IH]; [reflexivity|].
      intros predictions w. cbn [for_boxes]. unfold mbind, M_bind.
      destruct (float_lt (conf d) CONFIDENCE_THRESHOLD) eqn:Hd.
      - rewrite filter_cons_False by congruence.
        unfold for_box at 1. rewrite Hd. apply IH.
      - rewrite filter_cons_True by done. cbn [for_boxes]. unfold mbind, M_bind.
        destruct (for_box clock predictions d w) as [[predictions1|e] w1];
          [apply IH|reflexivity]. }
    cbn [confident_boxes boxes]. rewrite Hboxes.
    destruct (for_boxes clock predictions (boxes result) w) as [[predictions1|e] w1];
      [apply IH|reflexivity].
Qed.

Lemma low_confidence_discarded_witness :
  let d := Detection (0, 0, 1, 1)%Q (3 # 10) (0 # 1) in
  let d' := Detection (0, 0, 1, 1)%Q (5 # 10) (1 # 1) in
  let clock := λ _ : nat, "2024-05-01 10:00:00" in
  let w := World new_sheet 0 [] in
  ((conf d < CONFIDENCE_THRESHOLD)%Q ∧ for_box clock [] d w = (Ok [], w))
  ∧ ((CONFIDENCE_THRESHOLD <= conf d')%Q
     ∧ for_box clock [] d' w = classify_box clock [] d' w).
Proof.
  intros d d' clock w.
  pose proof (low_confidence_discarded (λ _ : string, Some tt) (λ _ : unit, []) clock)
    as (Hlow & Hhigh & _).
  split; split.
  - reflexivity.
  - apply Hlow. reflexivity.
  - discriminate.
  - apply Hhigh. discriminate.
Defined.

(** C8: when the image cannot be decoded the function returns [None] and no
    list of records; the sheet is the sheet before the call, no ledger call
    was made, and one error box was shown. *)
Theorem undecodable_image {Image : Type} (imread : string → option Image)
    (model : Image → list yolo_result) (clock : nat → string) image_path w :
  imread image_path = None →
  detect_and_classify imread model clock image_path w =
  (Ok None, World (w_sheet w) (w_clock w) (w_errors w ++ ["Error: Image not found."])).
Proof. intros Himage. unfold detect_and_classify. rewrite Himage. reflexivity. Qed.

Lemma undecodable_image_witness :
  let imread := λ _ : string, @None unit in
  let model := λ _ : unit, [YoloResult [Detection (0, 0, 1, 1)%Q (9 # 10) (0 # 1)]] in
  let w := World [header; Row (VInt 1) (VStr "onion") (VInt 2) (VStr "t0") (VInt 10)] 4 [] in
  detect_and_classify imread model (λ _, "t1") "broken.jpg" w =
  (Ok None, World (w_sheet w) 4 ["Error: Image not found."]).
Proof.
  intros imread model w.
  apply (undecodable_image imread model (λ _, "t1") "broken.jpg" w). reflexivity.
Defined.

(** C9, as the specification has it, fails: on an image that decodes, with
    one confident box, the function returns its record and has changed the
    sheet. *)
Lemma detect_and_classify_changes_ledger :
  let imread := λ _ : string, Some tt in
  let model := λ _ : unit, [YoloResult [Detection (0, 0, 1, 1)%Q (9 # 10) (0 # 1)]] in
  let w := World new_sheet 0 [] in
  let res := detect_and_classify imread model (λ _, "2024-05-01 10:00:00") "apple.jpg" w in
  imread "apple.jpg" = Some tt
  ∧ res.1 = Ok (Some [Prediction "Apple" "Fresh" "0.90"])
  ∧ w_sheet res.2 =
      [header; Row (VInt 1) (VStr "apple") (VInt 1) (VStr "2024-05-01 10:00:00") (VInt 7)]
  ∧ w_sheet res.2 ≠ w_sheet w.
Proof.
  intros imread model w res.
  split; [reflexivity|]. split; [reflexivity|]. split; [reflexivity|]. discriminate.
Qed.

(** C9, amended: on an image that decodes, the function shows no error box
    and changes the sheet only by the calls of [update_fresh_count] it makes
    itself, one for each record it returns, in the order of the records. *)
Theorem detect_and_classify_ledger_effect {Image : Type}
    (imread : string → option Image) (model : Image → list yolo_result)
    (clock : nat → string) image_path w image :
  imread image_path = Some image →
  ∃ calls : list (string * bool),
    let res := detect_and_classify imread model clock image_path w in
    w_sheet res.2 = replay clock (w_clock w) calls (w_sheet w)
    ∧ w_clock res.2 = (w_clock w + length calls)%nat
    ∧ w_errors res.2 = w_errors w
    ∧ res.1 ≠ Ok None
    ∧ ∀ preds, res.1 = Ok (Some preds) → Forall2 record_of_call calls preds.
Proof.
  intros Himage. unfold detect_and_classify. rewrite Himage. cbn zeta.
  unfold mbind, M_bind.
  destruct (for_results_effect clock (model image) [] w) as (calls & Hs & Hc & He & Hp).
  exists calls.
  destruct (for_results clock [] (model image) w) as [[predictions|e] w1]; cbn in *.
  - do 3 (split; [done|]). split; [done|].
    intros preds [= <-]. destruct (Hp _ eq_refl) as (news & -> & HF). done.
  - by do 4 (split; [done|]).
Qed.

Lemma detect_and_classify_ledger_effect_witness :
  let imread := λ _ : string, Some tt in
  let model := λ _ : unit,
    [YoloResult [Detection (0, 0, 1, 1)%Q (9 # 10) (0 # 1);
                 Detection (0, 0, 1, 1)%Q (3 # 10) (2 # 1);
                 Detection (0, 0, 1, 1)%Q (7 # 10) (1 # 1)]] in
  let clock := λ n : nat, pretty n in
  let w := World new_sheet 0 [] in
  ∃ calls : list (string * bool),
    let res := detect_and_classify imread model clock "apple.jpg" w in
    w_sheet res.2 = replay clock 0 calls new_sheet
    ∧ w_clock res.2 = (0 + length calls)%nat
    ∧ w_errors res.2 = []
    ∧ res.1 ≠ Ok None
    ∧ ∀ preds, res.1 = Ok (Some preds) → Forall2 record_of_call calls preds.
Proof.
  intros imread model clock w.
  apply (detect_and_classify_ledger_effect imread model clock "apple.jpg" w tt).
  reflexivity.
Defined.

(** A fresh detection of a product, on a ledger: the call returns, and the
    row of the product then has one more than the count before, the time of
    the call and the lifespan of the fresh product. *)
Lemma upsert_fresh_row product now (sheet : worksheet) :
  sheet ≠ [] →
  (∀ i r, find_row product sheet = Some (i, r) → ∃ n, col_fresh_count r = VInt n) →
  ∃ sheet' i r',
    update_fresh_count product true now sheet = Ok sheet'
    ∧ find_row product sheet' = Some (i, r')
    ∧ col_fresh_count r' = VInt (tally product sheet + 1)
    ∧ col_last_detected r' = VStr now
    ∧ col_life_span r' = lifespan_of product true.
Proof.
  intros Hne Hint. unfold tally.
  destruct (find_row product sheet) as [[i r]|] eqn:Hfind.
  - destruct (Hint i r eq_refl) as [n Hn]. rewrite Hn.
    pose proof (find_row_lookup _ _ _ _ Hfind) as [_ Hp].
    eexists _, i, _. split; [by apply (update_found product true now sheet i r n)|].
    split; [by apply (find_row_insert _ _ _ r)|]. by repeat split.
  - eexists _, _, _. split; [by apply update_not_found|].
    split; [by apply find_row_app_new|]. by repeat split.
Qed.

Lemma for_box_label clock predictions d w idx product freshness :
  py_int (cls d) = idx →
  py_getitem label_encoder idx = Ok (product +:+ "_" +:+ freshness) →
  unpack2 (py_split "_" (product +:+ "_" +:+ freshness)) = Ok (product, freshness) →
  (CONFIDENCE_THRESHOLD <= conf d)%Q →
  for_box clock predictions d w =
  match update_fresh_count product (bool_decide (freshness = "fresh"))
          (clock (w_clock w)) (w_sheet w) with
  | Ok sheet' =>
      (Ok (predictions ++ [Prediction (py_capitalize product) (py_capitalize freshness)
                                      (format_2f (conf d))]),
       World sheet' (S (w_clock w)) (w_errors w))
  | Raise e => (Raise e, w)
  end.
Proof.
  intros Hidx Hlabel Hsplit Hconf. apply float_lt_false in Hconf.
  unfold for_box. rewrite Hconf.
  unfold classify_box, mbind, M_bind, lift. rewrite Hidx, Hlabel, Hsplit.
  unfold call_update_fresh_count.
  destruct (update_fresh_count _ _ _ _); reflexivity.
Qed.

(** C4: every class index of the table is mapped to its label, and the label
    is split at its underscore into the product and the freshness written on
    either side of it; the box then makes the ledger call for that product
    and adds the record with both parts capitalised. One box of class 0 with
    confidence 0.9 gives the single record Apple, Fresh, "0.90", and the call
    for "apple" with [is_fresh] true, after which the row of "apple" has one
    more fresh detection and lifespan 7. *)
Theorem label_table_split :
  (∀ idx, 0 ≤ idx < 8 →
     ∃ product freshness,
       py_getitem label_encoder idx = Ok (product +:+ "_" +:+ freshness)
       ∧ unpack2 (py_split "_" (product +:+ "_" +:+ freshness)) = Ok (product, freshness)
       ∧ product ∈ ["apple"; "onion"; "carrot"; "tomato"]
       ∧ freshness ∈ ["fresh"; "stale"]
       ∧ ∀ clock predictions d w,
           py_int (cls d) = idx →
           (CONFIDENCE_THRESHOLD <= conf d)%Q →
           for_box clock predictions d w =
           match update_fresh_count product (bool_decide (freshness = "fresh"))
                   (clock (w_clock w)) (w_sheet w) with
           | Ok sheet' =>
               (Ok (predictions ++ [Prediction (py_capitalize product)
                                               (py_capitalize freshness)
                                               (format_2f (conf d))]),
                World sheet' (S (w_clock w)) (w_errors w))
           | Raise e => (Raise e, w)
           end)
  ∧ (∀ (Image : Type) (imread : string → option Image)
       (model : Image → list yolo_result) (clock : nat → string)
       image_path image d w,
       imread image_path = Some image →
       model image = [YoloResult [d]] →
       py_int (cls d) = 0 →
       (895 # 1000 < conf d)%Q → (conf d < 905 # 1000)%Q →
       w_sheet w ≠ [] →
       (∀ i r, find_row "apple" (w_sheet w) = Some (i, r) →
               ∃ n, col_fresh_count r = VInt n) →
       ∃ sheet' i r,
         update_fresh_count "apple" true (clock (w_clock w)) (w_sheet w) = Ok sheet'
         ∧ detect_and_classify imread model clock image_path w =
             (Ok (Some [Prediction "Apple" "Fresh" "0.90"]),
              World sheet' (S (w_clock w)) (w_errors w))
         ∧ find_row "apple" sheet' = Some (i, r)
         ∧ col_fresh_count r = VInt (tally "apple" (w_sheet w) + 1)
         ∧ col_life_span r = VInt 7).
Proof.
  split.
  - intros idx Hidx.
    assert (idx = 0 ∨ idx = 1 ∨ idx = 2 ∨ idx = 3 ∨ idx = 4 ∨ idx = 5 ∨ idx = 6 ∨ idx = 7)
      as Hcases by lia.
    assert (∀ product freshness,
      py_getitem label_encoder idx = Ok (product +:+ "_" +:+ freshness) →
      unpack2 (py_split "_" (product +:+ "_" +:+ freshness)) = Ok (product, freshness) →
      product ∈ ["apple"; "onion"; "carrot"; "tomato"] →
      freshness ∈ ["fresh"; "stale"] →
      ∃ product freshness,
        py_getitem label_encoder idx = Ok (product +:+ "_" +:+ freshness)
        ∧ unpack2 (py_split "_" (product +:+ "_" +:+ freshness)) = Ok (product, freshness)
        ∧ product ∈ ["apple"; "onion"; "carrot"; "tomato"]
        ∧ freshness ∈ ["fresh"; "stale"]
        ∧ ∀ clock predictions d w,
            py_int (cls d) = idx →
            (CONFIDENCE_THRESHOLD <= conf d)%Q →
            for_box clock predictions d w =
            match update_fresh_count product (bool_decide (freshness = "fresh"))
                    (clock (w_clock w)) (w_sheet w) with
            | Ok sheet' =>
                (Ok (predictions ++ [Prediction (py_capitalize product)
                                                (py_capitalize freshness)
                                                (format_2f (conf d))]),
                 World sheet' (S (w_clock w)) (w_errors w))
            | Raise e => (Raise e, w)
            end) as Hcase.
    { intros product freshness Hlabel Hsplit Hp Hf. exists product, freshness.
      do 4 (split; [done|]). intros clock predictions d w Hcls Hconf.
      by apply (for_box_label clock predictions d w idx). }
    destruct Hcases as [->|[->|[->|[->|[->|[->|[->| ->]]]]]]].
    + apply (Hcase "apple" "fresh"); [reflexivity..| |]; repeat constructor.
    + apply (Hcase "apple" "stale"); [reflexivity..| |]; repeat constructor.
    + apply (Hcase "onion" "fresh"); [reflexivity..| |]; repeat constructor.
    + apply (Hcase "onion" "stale"); [reflexivity..| |]; repeat constructor.
    + apply (Hcase "carrot" "fresh"); [reflexivity..| |]; repeat constructor.
    + apply (Hcase "carrot" "stale"); [reflexivity..| |]; repeat constructor.
    + apply (Hcase "tomato" "fresh"); [reflexivity..| |]; repeat constructor.
    + apply (Hcase "tomato" "stale"); [reflexivity..| |]; repeat constructor.
  - intros Image imread model clock image_path image d w
      Himage Hmodel Hcls Hlo Hhi Hne Hint.
    destruct (upsert_fresh_row "apple" (clock (w_clock w)) (w_sheet w) Hne Hint)
      as (sheet' & i & r & Hup & Hfind & Hcount & _ & Hlife).
    exists sheet', i, r. split; [done|]. split; [|by repeat split].
    unfold detect_and_classify. rewrite Himage, Hmodel. cbn zeta.
    cbn [for_results for_boxes boxes]. unfold mbind at 1 2 3, M_bind.
    rewrite (for_box_label clock [] d w 0 "apple" "fresh" Hcls eq_refl eq_refl).
    + change (bool_decide ("fresh" = "fresh")) with true. rewrite Hup.
      cbn. by rewrite (format_2f_090 _ Hlo Hhi).
    + unfold CONFIDENCE_THRESHOLD. eapply Qle_trans; [|apply Qlt_le_weak, Hlo]. done.
Qed.

Lemma label_table_split_witness :
  let imread := λ _ : string, Some tt in
  (* the binary64 float nearest to 0.9 *)
  let d := Detection (0, 0, 1, 1)%Q (8106479329266893 # 9007199254740992) (0 # 1) in
  let model := λ _ : unit, [YoloResult [d]] in
  let clock := λ _ : nat, "2024-05-01 10:00:00" in
  let w := World [header; Row (VInt 1) (VStr "apple") (VInt 3) (VStr "t0") (VInt 7)] 0 [] in
  (∃ product freshness,
     py_getitem label_encoder 3 = Ok (product +:+ "_" +:+ freshness)
     ∧ unpack2 (py_split "_" (product +:+ "_" +:+ freshness)) = Ok (product, freshness))
  ∧ ∃ sheet' i r,
      update_fresh_count "apple" true (clock 0%nat) (w_sheet w) = Ok sheet'
      ∧ detect_and_classify imread model clock "apple.jpg" w =
          (Ok (Some [Prediction "Apple" "Fresh" "0.90"]), World sheet' 1 [])
      ∧ find_row "apple" sheet' = Some (i, r)
      ∧ col_fresh_count r = VInt 4
      ∧ col_life_span r = VInt 7.
Proof.
  intros imread d model clock w.
  destruct label_table_split as [Htable Hscenario]. split.
  - destruct (Htable 3) as (product & freshness & Hlabel & Hsplit & _); [lia|].
    exists product, freshness. split; assumption.
  - apply (Hscenario unit imread model clock "apple.jpg" tt d w).
    + reflexivity.
    + reflexivity.
    + reflexivity.
    + reflexivity.
    + reflexivity.
    + discriminate.
    + intros i r [= <- <-]. exists 3. reflexivity.
Defined.


(** * Further properties *)

(** ** The ledger upsert: errors and frame *)

(** X1: on a row whose count cell is empty or holds text, a fresh detection
    of its product raises [TypeError] and writes nothing, while a stale
    detection returns: it leaves that count as it is and writes the time of
    the call and "N/A" to the row. *)
Theorem fresh_call_raises_on_bad_count product now (sheet : worksheet) i r :
  find_row product sheet = Some (i, r) →
  (col_fresh_count r = VNone ∨ ∃ s, col_fresh_count r = VStr s) →
  update_fresh_count product true now sheet = Raise TypeError
  ∧ update_fresh_count product false now sheet =
      Ok (<[S i := Row (col_s_no r) (col_product r) (col_fresh_count r)
                       (VStr now) (VStr "N/A")]> sheet).
Proof.
  intros Hfind Hcount. rewrite !update_fresh_count_find, Hfind. split.
  - by destruct Hcount as [->|[s ->]].
  - reflexivity.
Qed.

Lemma fresh_call_raises_on_bad_count_witness :
  let r := Row (VInt 1) (VStr "apple") VNone (VStr "t0") (VInt 7) in
  let sheet := [header; r] in
  update_fresh_count "apple" true "t1" sheet = Raise TypeError
  ∧ update_fresh_count "apple" false "t1" sheet =
      Ok [header; Row (VInt 1) (VStr "apple") VNone (VStr "t1") (VStr "N/A")].
Proof.
  intros r sheet.
  apply (fresh_call_raises_on_bad_count "apple" "t1" sheet 0 r).
  - reflexivity.
  - by left.
Defined.

(** X2: a call leaves every row but the first matching one exactly as it
    was: the header, the rows of other products, and later rows of the same
    product. *)
Theorem update_touches_one_row product is_fresh now (sheet : worksheet) j r :
  sheet !! j = Some r →
  (j = 0%nat
   ∨ col_product r ≠ VStr product
   ∨ ∃ i r0, find_row product sheet = Some (i, r0) ∧ (S i < j)%nat) →
  sheet_after product is_fresh now sheet !! j = Some r.
Proof.
  intros Hj Hother.
  destruct (sheet_after_effect product is_fresh now sheet)
    as [i ri e Hfind _ _ | i ri count Hfind Hb | Hfind].
  - done.
  - rewrite list_lookup_insert_ne; [done|].
    apply find_row_lookup in Hfind as Hi. destruct Hi as [Hi Hp]. intros <-.
    destruct Hother as [?|[Hne|(i' & r0 & Hfind' & Hlt)]]; [done| |].
    + congruence.
    + rewrite Hfind in Hfind'. injection Hfind' as <- <-. lia.
  - rewrite lookup_app_l; [done|]. by eapply lookup_lt_Some.
Qed.

Lemma update_touches_one_row_witness :
  let dup := Row (VInt 2) (VStr "apple") (VInt 5) (VStr "t0") (VInt 7) in
  let sheet := [header; Row (VInt 1) (VStr "apple") (VInt 3) (VStr "t0") (VInt 7); dup] in
  sheet_after "apple" true "t1" sheet !! 2%nat = Some dup
  ∧ sheet_after "Product" true "t1" sheet !! 0%nat = Some header.
Proof.
  intros dup sheet. split.
  - apply (update_touches_one_row "apple" true "t1" sheet 2 dup); [reflexivity|].
    right. right. eexists 0%nat, _. split; [reflexivity|lia].
  - apply (update_touches_one_row "Product" true "t1" sheet 0 header); [reflexivity|].
    by left.
Defined.

(** ** The ledger upsert: invariants and history *)

Lemma find_row_count (sheet : worksheet) product i r :
  counts_are_integers sheet →
  find_row product sheet = Some (i, r) →
  ∃ n, col_fresh_count r = VInt n.
Proof.
  unfold counts_are_integers. rewrite Forall_forall. intros Hint Hfind.
  apply Hint. apply find_row_lookup in Hfind as [Hi _].
  unfold ledger_rows. apply list_elem_of_lookup. exists i. by rewrite lookup_drop.
Qed.

Lemma length_ledger_rows_insert (sheet : worksheet) i r :
  length (ledger_rows (<[i := r]> sheet)) = length (ledger_rows sheet).
Proof. unfold ledger_rows. by rewrite !length_drop, length_insert. Qed.

(** One call on a ledger: it returns, and the ledger is still one. *)
Lemma update_keeps_ledger_ok product is_fresh now sheet :
  ledger_ok sheet →
  ∃ sheet', update_fresh_count product is_fresh now sheet = Ok sheet'
            ∧ ledger_ok sheet'.
Proof.
  intros (Hne & Hone & Hint & Hnum).
  assert (∃ sheet', update_fresh_count product is_fresh now sheet = Ok sheet')
    as [sheet' Hup].
  { destruct (find_row product sheet) as [[i r]|] eqn:Hfind.
    - destruct (find_row_count _ _ _ _ Hint Hfind) as [n Hn].
      eexists. by apply (update_found product is_fresh now sheet i r n).
    - eexists. by apply update_not_found. }
  exists sheet'. split; [done|].
  pose proof (sheet_after_one_row_per_product product is_fresh now sheet Hone) as Hone'.
  pose proof (sheet_after_effect product is_fresh now sheet) as Heff.
  unfold sheet_after in Hone', Heff. rewrite Hup in Hone', Heff.
  split; [|split; [done|]].
  { destruct Heff; [done|by destruct sheet|by destruct sheet]. }
  destruct Heff as [i r e Hfind _ _ | i r count Hfind Hb | Hfind].
  - done.
  - pose proof (find_row_lookup _ _ _ _ Hfind) as [Hi Hp]. split.
    + apply counts_are_integers_insert; [done|]. cbn.
      destruct (find_row_count _ _ _ _ Hint Hfind) as [n Hn].
      apply bumped_Ok in Hb as [->|(m & _ & _ & ->)]; eauto.
    + by rewrite (sequence_numbers_insert _ _ r), length_ledger_rows_insert.
  - split.
    + unfold counts_are_integers in *. rewrite ledger_rows_app by done.
      apply Forall_app. split; [done|]. apply Forall_singleton. cbn. eauto.
    + unfold sequence_numbers in *. rewrite ledger_rows_app by done.
      rewrite fmap_app, Hnum, length_app, Nat.add_1_r, numbering_snoc. cbn.
      do 3 f_equal. rewrite max_row_length by done.
      unfold ledger_rows. rewrite length_drop. destruct sheet; [done|]. cbn. lia.
Qed.

(** X3: on a ledger (header row, one row per product, integer counts, rows
    numbered from 1) no sequence of calls for products that are text a cell
    stores as it is raises, and what it leaves is a ledger again. *)
Theorem run_upserts_keeps_ledger_ok calls : ∀ sheet,
  Forall cell_text (calls.*1.*1) →
  ledger_ok sheet →
  ∃ sheet', run_upserts calls sheet = Ok sheet' ∧ ledger_ok sheet'.
Proof.
  induction calls as [|[[product is_fresh] now] calls IH]; intros sheet Htext Hok.
  - by exists sheet.
  - apply Forall_cons in Htext as [_ Htext].
    destruct (update_keeps_ledger_ok product is_fresh now sheet Hok)
      as (sheet1 & Hup & Hok1).
    cbn. rewrite Hup. cbn. by apply IH.
Qed.

Lemma ledger_ok_example :
  ledger_ok [header; Row (VInt 1) (VStr "onion") (VInt 2) (VStr "t0") (VInt 10);
             Row (VInt 2) (VStr "apple") (VInt 0) (VStr "t0") (VStr "N/A")].
Proof.
  split; [done|]. split; [|split; [|reflexivity]].
  - refine (bool_decide_unpack (NoDup _) _). vm_compute. exact I.
  - repeat constructor; cbn; eauto.
Defined.

Lemma run_upserts_keeps_ledger_ok_witness :
  let sheet := [header; Row (VInt 1) (VStr "onion") (VInt 2) (VStr "t0") (VInt 10);
                Row (VInt 2) (VStr "apple") (VInt 0) (VStr "t0") (VStr "N/A")] in
  ∃ sheet', run_upserts [("apple", true, "t1"); ("carrot", false, "t2")] sheet = Ok sheet'
            ∧ ledger_ok sheet'.
Proof.
  intros sheet.
  apply (run_upserts_keeps_ledger_ok [("apple", true, "t1"); ("carrot", false, "t2")] sheet).
  - repeat (constructor; [split; [cbn; lia|reflexivity]|]). constructor.
  - exact ledger_ok_example.
Defined.

Lemma run_upserts_app calls1 : ∀ calls2 sheet,
  run_upserts (calls1 ++ calls2) sheet =
  (run_upserts calls1 sheet ≫= run_upserts calls2).
Proof.
  induction calls1 as [|[[product is_fresh] now] calls1 IH]; intros calls2 sheet.
  - reflexivity.
  - cbn. destruct (update_fresh_count product is_fresh now sheet) as [sheet1|e];
      [apply IH|reflexivity].
Qed.

(** A call for one product does not move or change the row found for
    another. *)
Lemma find_row_other_product product other is_fresh now (sheet : worksheet) :
  sheet ≠ [] →
  other ≠ product →
  find_row other (sheet_after product is_fresh now sheet) = find_row other sheet.
Proof.
  intros Hne Hother.
  destruct (sheet_after_effect product is_fresh now sheet)
    as [i r e Hfind _ _ | i r count Hfind Hb | Hfind].
  - done.
  - pose proof (find_row_lookup _ _ _ _ Hfind) as [Hi Hp].
    unfold find_row. rewrite ledger_rows_insert.
    assert (ledger_rows sheet !! i = Some r) as Hi'
      by (unfold ledger_rows; by rewrite lookup_drop).
    set (rows := ledger_rows sheet) in *. clearbody rows.
    set (r' := touched product is_fresh now count r).
    assert (col_product r' = col_product r) as Hp' by reflexivity. clearbody r'.
    clear -Hi' Hp Hp' Hother. revert i Hi'.
    induction rows as [|r0 rows IH]; intros i Hi'; [done|].
    destruct i as [|i]; cbn in *.
    + injection Hi' as ->.
      rewrite !decide_False by congruence. reflexivity.
    + destruct (decide (col_product r0 = VStr other)); [done|]. by rewrite IH.
  - unfold find_row. rewrite ledger_rows_app by done.
    destruct (list_find _ (ledger_rows sheet)) as [[i r]|] eqn:Hfind'.
    + by apply list_find_app_l.
    + apply list_find_app_None. split; [done|]. cbn.
      rewrite decide_False; [done|]. intros [= ->]. done.
Qed.

(** The row of the product after a call on a ledger. *)
Lemma upsert_row_after product is_fresh now (sheet : worksheet) :
  sheet ≠ [] →
  counts_are_integers sheet →
  ∃ sheet' i r',
    update_fresh_count product is_fresh now sheet = Ok sheet'
    ∧ find_row product sheet' = Some (i, r')
    ∧ col_fresh_count r' = VInt (tally product sheet + if is_fresh then 1 else 0)
    ∧ col_last_detected r' = VStr now
    ∧ col_life_span r' = lifespan_of product is_fresh.
Proof.
  intros Hne Hint. unfold tally.
  destruct (find_row product sheet) as [[i r]|] eqn:Hfind.
  - destruct (find_row_count _ _ _ _ Hint Hfind) as [n Hn]. rewrite Hn.
    pose proof (find_row_lookup _ _ _ _ Hfind) as [_ Hp].
    eexists _, i, _. split; [by apply (update_found product is_fresh now sheet i r n)|].
    split; [by apply (find_row_insert _ _ _ r)|]. cbn. rewrite Hn.
    repeat split. destruct is_fresh; f_equal; lia.
  - eexists _, _, _. split; [by apply update_not_found|].
    split; [by apply find_row_app_new|]. cbn. by destruct is_fresh.
Qed.

Lemma update_keeps_counts product is_fresh now (sheet sheet' : worksheet) :
  sheet ≠ [] →
  counts_are_integers sheet →
  update_fresh_count product is_fresh now sheet = Ok sheet' →
  sheet' ≠ [] ∧ counts_are_integers sheet'.
Proof.
  intros Hne Hint Hup.
  pose proof (sheet_after_effect product is_fresh now sheet) as Heff.
  unfold sheet_after in Heff. rewrite Hup in Heff.
  destruct Heff as [i r e Hfind _ _ | i r count Hfind Hb | Hfind].
  - done.
  - split; [by destruct sheet|].
    apply counts_are_integers_insert; [done|]. cbn.
    destruct (find_row_count _ _ _ _ Hint Hfind) as [n Hn].
    apply bumped_Ok in Hb as [->|(m & _ & _ & ->)]; eauto.
  - split; [by destruct sheet|].
    unfold counts_are_integers in *. rewrite ledger_rows_app by done.
    apply Forall_app. split; [done|]. apply Forall_singleton. cbn. eauto.
Qed.

Lemma calls_for_snoc product calls q is_fresh now :
  calls_for product (calls ++ [(q, is_fresh, now)]) =
  calls_for product calls ++ (if decide (q = product) then [(q, is_fresh, now)] else []).
Proof.
  unfold calls_for. by rewrite filter_app.
Qed.

(** X4: the ledger records the history of the calls. After any sequence of
    calls on a sheet with its header and integer counts, a product that was
    not called for has the row it had, if any; a product that was called for
    has a row whose count is its count before (0 without a row) plus the
    number of fresh calls for it, whose time is the time of the last call for
    it, and whose lifespan is the one of that last call. The products are
    text a cell stores as it is. *)
Theorem ledger_records_history calls (sheet : worksheet) :
  Forall cell_text (calls.*1.*1) →
  sheet ≠ [] →
  counts_are_integers sheet →
  ∃ sheet',
    run_upserts calls sheet = Ok sheet'
    ∧ ∀ product,
        match last (calls_for product calls) with
        | None => find_row product sheet' = find_row product sheet
        | Some (_, is_fresh, now) =>
            ∃ i r,
              find_row product sheet' = Some (i, r)
              ∧ col_fresh_count r =
                  VInt (tally product sheet + Z.of_nat (fresh_calls product calls))
              ∧ col_last_detected r = VStr now
              ∧ col_life_span r = lifespan_of product is_fresh
        end.
Proof.
  intros _ Hne Hint.
  enough (∃ sheet', run_upserts calls sheet = Ok sheet'
            ∧ sheet' ≠ [] ∧ counts_are_integers sheet'
            ∧ ∀ product,
                match last (calls_for product calls) with
                | None => find_row product sheet' = find_row product sheet
                | Some (_, is_fresh, now) =>
                    ∃ i r,
                      find_row product sheet' = Some (i, r)
                      ∧ col_fresh_count r =
                          VInt (tally product sheet + Z.of_nat (fresh_calls product calls))
                      ∧ col_last_detected r = VStr now
                      ∧ col_life_span r = lifespan_of product is_fresh
                end) as (sheet' & ? & _ & _ & ?) by eauto.
  induction calls as [|[[q is_fresh] now] calls IH] using rev_ind.
  - exists sheet. by repeat split.
  - destruct IH as (sheet1 & Hrun & Hne1 & Hint1 & Hhist).
    destruct (upsert_row_after q is_fresh now sheet1 Hne1 Hint1)
      as (sheet2 & i & r & Hup & Hfind & Hcount & Htime & Hlife).
    destruct (update_keeps_counts _ _ _ _ _ Hne1 Hint1 Hup) as [Hne2 Hint2].
    exists sheet2. rewrite run_upserts_app, Hrun. cbn. rewrite Hup. cbn.
    do 3 (split; [done|]). intros product.
    unfold fresh_calls. rewrite calls_for_snoc.
    destruct (decide (q = product)) as [->|Hq].
    + rewrite last_snoc. exists i, r. split; [done|]. split; [|done].
      rewrite Hcount, filter_app, length_app. f_equal.
      assert (tally product sheet1 =
              tally product sheet
              + Z.of_nat (length (filter (λ c, c.1.2 = true) (calls_for product calls))))
        as ->.
      { specialize (Hhist product).
        destruct (last (calls_for product calls)) as [[[? ?] ?]|] eqn:Hlast.
        - destruct Hhist as (i1 & r1 & Hfind1 & Hcount1 & _).
          unfold tally at 1. by rewrite Hfind1, Hcount1.
        - apply last_None in Hlast. rewrite Hlast. cbn.
          unfold tally. rewrite Hhist. lia. }
      destruct is_fresh; cbn.
      * rewrite decide_True by done. cbn. lia.
      * rewrite decide_False by done. cbn. lia.
    + rewrite app_nil_r.
      assert (find_row product sheet2 = find_row product sheet1) as ->.
      { pose proof (find_row_other_product q product is_fresh now sheet1 Hne1) as Hother.
        unfold sheet_after in Hother. rewrite Hup in Hother. apply Hother. congruence. }
      apply Hhist.
Qed.

Lemma ledger_records_history_witness :
  let calls := [("apple", true, "t1"); ("onion", false, "t2");
                ("apple", true, "t3"); ("apple", false, "t4")] in
  ∃ sheet',
    run_upserts calls new_sheet = Ok sheet'
    ∧ (∃ i r, find_row "apple" sheet' = Some (i, r)
              ∧ col_fresh_count r = VInt 2
              ∧ col_last_detected r = VStr "t4"
              ∧ col_life_span r = VStr "N/A")
    ∧ find_row "carrot" sheet' = None.
Proof.
  intros calls.
  destruct (ledger_records_history calls new_sheet) as (sheet' & Hrun & Hhist).
  - repeat (constructor; [split; [cbn; lia|reflexivity]|]). constructor.
  - discriminate.
  - apply Forall_nil_2.
  - exists sheet'. split; [exact Hrun|]. split.
    + exact (Hhist "apple").
    + exact (Hhist "carrot").
Defined.

(** ** The ledger upsert: order of calls *)







(** ** The detection interpreter: records *)

(** One turn of the inner loop, in terms of the label of the box. *)
Lemma for_box_label_run clock predictions d w :
  for_box clock predictions d w =
  if float_lt (conf d) CONFIDENCE_THRESHOLD then (Ok predictions, w)
  else match box_label d with
       | Raise e => (Raise e, w)
       | Ok (product, freshness) =>
           match update_fresh_count product (bool_decide (freshness = "fresh"))
                   (clock (w_clock w)) (w_sheet w) with
           | Ok sheet' =>
               (Ok (predictions ++ [Prediction (py_capitalize product)
                                               (py_capitalize freshness)
                                               (format_2f (conf d))]),
                World sheet' (S (w_clock w)) (w_errors w))
           | Raise e => (Raise e, w)
           end
       end.
Proof.
  unfold for_box. destruct (float_lt _ _); [reflexivity|].
  unfold classify_box, box_label, mbind, M_bind, result_bind, lift.
  destruct (py_getitem label_encoder (py_int (cls d))) as [label|e]; [|reflexivity].
  destruct (unpack2 (py_split "_" label)) as [[product freshness]|e]; [|reflexivity].
  unfold call_update_fresh_count.
  destruct (update_fresh_count _ _ _ _); reflexivity.
Qed.

(** The labels of the table, split. *)
Lemma box_label_Ok d product freshness :
  box_label d = Ok (product, freshness) →
  product ∈ ["apple"; "onion"; "carrot"; "tomato"]
  ∧ freshness ∈ ["fresh"; "stale"].
Proof.
  unfold box_label, mbind, result_bind.
  destruct (py_getitem label_encoder (py_int (cls d))) as [label|e] eqn:Hlabel;
    [|discriminate].
  apply py_getitem_elem in Hlabel. unfold label_encoder in Hlabel.
  repeat (apply elem_of_cons in Hlabel as [->|Hlabel]);
    [..|by apply elem_of_nil in Hlabel].
  all: intros [= <- <-]; split; repeat constructor.
Qed.

(** A class index of the table has a label; any other raises
    [IndexError]. *)
Lemma box_label_in_table d :
  (in_table d → ∃ product freshness, box_label d = Ok (product, freshness))
  ∧ (¬ in_table d → box_label d = Raise IndexError).
Proof.
  unfold in_table, box_label. change (Z.of_nat (length label_encoder)) with 8.
  set (idx := py_int (cls d)). split.
  - intros Hidx.
    assert (idx = -8 ∨ idx = -7 ∨ idx = -6 ∨ idx = -5 ∨ idx = -4 ∨ idx = -3
            ∨ idx = -2 ∨ idx = -1 ∨ idx = 0 ∨ idx = 1 ∨ idx = 2 ∨ idx = 3
            ∨ idx = 4 ∨ idx = 5 ∨ idx = 6 ∨ idx = 7) as Hcases by lia.
    repeat (destruct Hcases as [->|Hcases]); try rewrite Hcases;
      by eexists _, _.
  - intros Hidx. unfold py_getitem.
    change (Z.of_nat (length label_encoder)) with 8.
    destruct (idx <? 0) eqn:Hneg.
    + apply Z.ltb_lt in Hneg.
      assert ((idx + 8 <? 0) = true) as -> by (apply Z.ltb_lt; lia). reflexivity.
    + apply Z.ltb_ge in Hneg. assert ((idx <? 0) = false) as -> by (apply Z.ltb_ge; lia).
      assert ((8 <=? idx) = true) as -> by (apply Z.leb_le; lia). reflexivity.
Qed.

Lemma for_boxes_app clock bs1 : ∀ bs2 predictions w,
  for_boxes clock predictions (bs1 ++ bs2) w =
  match for_boxes clock predictions bs1 w with
  | (Ok predictions1, w1) => for_boxes clock predictions1 bs2 w1
  | (Raise e, w1) => (Raise e, w1)
  end.
Proof.
  induction bs1 as [|d bs1 IH]; intros bs2 predictions w; [reflexivity|].
  cbn [app for_boxes]. unfold mbind, M_bind.
  destruct (for_box clock predictions d w) as [[predictions1|e] w1];
    [apply IH|reflexivity].
Qed.

(** The two loops visit the boxes of all results in one sequence. *)
Lemma for_results_all_boxes clock results : ∀ predictions w,
  for_results clock predictions results w =
  for_boxes clock predictions (all_boxes results) w.
Proof.
  induction results as [|result results IH]; intros predictions w; [reflexivity|].
  cbn [for_results]. unfold mbind, M_bind, all_boxes. cbn [fmap list_fmap concat].
  rewrite for_boxes_app.
  destruct (for_boxes clock predictions (boxes result) w) as [[predictions1|e] w1];
    [apply IH|reflexivity].
Qed.

Lemma detect_and_classify_all_boxes {Image : Type} (imread : string → option Image)
    (model : Image → list yolo_result) clock image_path image w :
  imread image_path = Some image →
  detect_and_classify imread model clock image_path w =
  match for_boxes clock [] (all_boxes (model image)) w with
  | (Ok predictions, w') => (Ok (Some predictions), w')
  | (Raise e, w') => (Raise e, w')
  end.
Proof.
  intros Himage. unfold detect_and_classify. rewrite Himage. cbn zeta.
  unfold mbind, M_bind. by rewrite for_results_all_boxes.
Qed.

Lemma for_boxes_records clock bs : ∀ predictions w preds' w',
  for_boxes clock predictions bs w = (Ok preds', w') →
  ∃ news, preds' = predictions ++ news
          ∧ Forall2 (λ d pred, box_record d = Ok pred) (filter confident bs) news.
Proof.
  induction bs as [|d bs IH]; intros predictions w preds' w' Hrun.
  - injection Hrun as <- <-. exists []. by rewrite app_nil_r.
  - cbn [for_boxes] in Hrun. unfold mbind, M_bind in Hrun.
    rewrite for_box_label_run in Hrun. unfold confident.
    destruct (float_lt (conf d) CONFIDENCE_THRESHOLD) eqn:Hconf.
    + rewrite filter_cons_False by (unfold confident; congruence). by eapply IH.
    + rewrite filter_cons_True by done.
      destruct (box_label d) as [[product freshness]|e] eqn:Hlabel; [|discriminate].
      destruct (update_fresh_count _ _ _ _) as [sheet'|e]; [|discriminate].
      destruct (IH _ _ _ _ Hrun) as (news & -> & HF).
      eexists (_ :: news). split; [by rewrite <- app_assoc|].
      constructor; [|done]. unfold box_record. by rewrite Hlabel.
Qed.

(** X6: when the function returns, it returns one record for each box that
    passes the confidence test, in the order of the boxes and without
    merging boxes of one product; the record of a box has the two parts of
    its label, capitalised, and its confidence with two decimals. So a
    product is one of Apple, Onion, Carrot, Tomato and a freshness is Fresh
    or Stale. *)
Theorem records_follow_boxes {Image : Type} (imread : string → option Image)
    (model : Image → list yolo_result) clock image_path image w preds w' :
  imread image_path = Some image →
  detect_and_classify imread model clock image_path w = (Ok (Some preds), w') →
  Forall2 (λ d pred, box_record d = Ok pred)
          (filter confident (all_boxes (model image))) preds
  ∧ length preds = length (filter confident (all_boxes (model image)))
  ∧ Forall (λ pred, Product pred ∈ ["Apple"; "Onion"; "Carrot"; "Tomato"]
                    ∧ Freshness pred ∈ ["Fresh"; "Stale"]) preds.
Proof.
  intros Himage Hrun. rewrite (detect_and_classify_all_boxes _ _ _ _ image) in Hrun by done.
  destruct (for_boxes clock [] (all_boxes (model image)) w) as [[preds0|e] w0] eqn:Hboxes;
    [|discriminate].
  injection Hrun as -> ->.
  destruct (for_boxes_records _ _ _ _ _ _ Hboxes) as (news & -> & HF). cbn.
  split; [done|]. split; [symmetry; by eapply Forall2_length|].
  clear Hboxes. induction HF as [|d pred ds preds Hrec _ IH]; [constructor|].
  constructor; [|done]. unfold box_record, mbind, result_bind in Hrec.
  destruct (box_label d) as [[product freshness]|e] eqn:Hlabel; [|discriminate].
  injection Hrec as <-. cbn [Product Freshness].
  apply box_label_Ok in Hlabel as [Hp Hf].
  repeat (apply elem_of_cons in Hp as [->|Hp]); [..|by apply elem_of_nil in Hp].
  all: repeat (apply elem_of_cons in Hf as [->|Hf]); [..|by apply elem_of_nil in Hf].
  all: split; repeat constructor.
Qed.

Lemma records_follow_boxes_witness :
  let imread := λ _ : string, Some tt in
  let ds := [Detection (0, 0, 1, 1)%Q (9 # 10) (0 # 1);
                Detection (0, 0, 1, 1)%Q (3 # 10) (2 # 1);
                Detection (2, 2, 3, 3)%Q (7 # 10) (0 # 1)] in
  let model := λ _ : unit, [YoloResult ds] in
  let preds := [Prediction "Apple" "Fresh" "0.90"; Prediction "Apple" "Fresh" "0.70"] in
  Forall2 (λ d pred, box_record d = Ok pred) (filter confident ds) preds
  ∧ length preds = length (filter confident ds)
  ∧ Forall (λ pred, Product pred ∈ ["Apple"; "Onion"; "Carrot"; "Tomato"]
                    ∧ Freshness pred ∈ ["Fresh"; "Stale"]) preds.
Proof.
  intros imread ds model preds.
  apply (records_follow_boxes imread model (λ n, pretty n) "a.jpg" tt
           (World new_sheet 0 []) preds
           (World [header; Row (VInt 1) (VStr "apple") (VInt 2) (VStr "1") (VInt 7)] 2 [])).
  - reflexivity.
  - reflexivity.
Defined.

(** ** The detection interpreter: when it returns and when it raises *)

Lemma for_boxes_return clock bs : ∀ predictions w,
  Forall (λ d, confident d → in_table d) bs →
  w_sheet w ≠ [] →
  counts_are_integers (w_sheet w) →
  ∃ preds' w', for_boxes clock predictions bs w = (Ok preds', w')
               ∧ w_sheet w' ≠ [] ∧ counts_are_integers (w_sheet w').
Proof.
  induction bs as [|d bs IH]; intros predictions w Htable Hne Hint.
  - by exists predictions, w.
  - apply Forall_cons in Htable as [Hd Htable].
    cbn [for_boxes]. unfold mbind, M_bind. rewrite for_box_label_run.
    destruct (float_lt (conf d) CONFIDENCE_THRESHOLD) eqn:Hconf; [by apply IH|].
    destruct (proj1 (box_label_in_table d) (Hd Hconf)) as (product & freshness & ->).
    destruct (upsert_row_after product (bool_decide (freshness = "fresh"))
                (clock (w_clock w)) (w_sheet w) Hne Hint) as (sheet' & _ & _ & Hup & _).
    rewrite Hup.
    destruct (update_keeps_counts _ _ _ _ _ Hne Hint Hup) as [Hne' Hint'].
    by apply IH.
Qed.

(** X7: on an image that decodes, when every box that passes the confidence
    test has a class index Python accepts for the table (from -8 to 7) and
    the sheet has its header and integer counts, the function raises nothing:
    it returns a list with one record for each such box, and the sheet still
    has its header and integer counts. *)
Theorem detect_returns_on_table {Image : Type} (imread : string → option Image)
    (model : Image → list yolo_result) clock image_path image w :
  imread image_path = Some image →
  Forall (λ d, confident d → in_table d) (all_boxes (model image)) →
  w_sheet w ≠ [] →
  counts_are_integers (w_sheet w) →
  ∃ preds w',
    detect_and_classify imread model clock image_path w = (Ok (Some preds), w')
    ∧ length preds = length (filter confident (all_boxes (model image)))
    ∧ w_sheet w' ≠ [] ∧ counts_are_integers (w_sheet w').
Proof.
  intros Himage Htable Hne Hint.
  destruct (for_boxes_return clock _ [] w Htable Hne Hint)
    as (preds & w' & Hrun & Hne' & Hint').
  exists preds, w'. rewrite (detect_and_classify_all_boxes _ _ _ _ image) by done.
  rewrite Hrun. split; [done|]. split; [|done].
  destruct (for_boxes_records _ _ _ _ _ _ Hrun) as (news & -> & HF).
  symmetry. by eapply Forall2_length.
Qed.

Lemma detect_returns_on_table_witness :
  let imread := λ _ : string, Some tt in
  let ds := [Detection (0, 0, 1, 1)%Q (9 # 10) (-1 # 1);
             Detection (0, 0, 1, 1)%Q (3 # 10) (99 # 1);
             Detection (2, 2, 3, 3)%Q (7 # 10) (5 # 2)] in
  let model := λ _ : unit, [YoloResult ds] in
  let w := World new_sheet 0 [] in
  ∃ preds w',
    detect_and_classify imread model (λ n, pretty n) "a.jpg" w = (Ok (Some preds), w')
    ∧ length preds = 2%nat
    ∧ w_sheet w' ≠ [] ∧ counts_are_integers (w_sheet w').
Proof.
  intros imread ds model w.
  apply (detect_returns_on_table imread model (λ n, pretty n) "a.jpg" tt w).
  - reflexivity.
  - repeat constructor; try discriminate; unfold in_table; cbn; lia.
  - discriminate.
  - apply Forall_nil_2.
Defined.

(** X8: a box that passes the confidence test with a class index outside
    the table stops the pass with [IndexError]. No records are returned, not
    even those of the boxes before it, but the ledger calls made for those
    boxes stay in the sheet. *)
Theorem detect_raises_off_table {Image : Type} (imread : string → option Image)
    (model : Image → list yolo_result) clock image_path image w
    before d after preds1 w1 :
  imread image_path = Some image →
  all_boxes (model image) = before ++ d :: after →
  for_boxes clock [] before w = (Ok preds1, w1) →
  confident d →
  ¬ in_table d →
  detect_and_classify imread model clock image_path w = (Raise IndexError, w1)
  ∧ ∃ calls, w_sheet w1 = replay clock (w_clock w) calls (w_sheet w)
             ∧ Forall2 record_of_call calls preds1.
Proof.
  intros Himage Hboxes Hbefore Hconf Htable. split.
  - rewrite (detect_and_classify_all_boxes _ _ _ _ image) by done.
    rewrite Hboxes, for_boxes_app, Hbefore. cbn [for_boxes]. unfold mbind, M_bind.
    rewrite for_box_label_run. unfold confident in Hconf. rewrite Hconf.
    by rewrite (proj2 (box_label_in_table d) Htable).
  - destruct (for_boxes_effect clock before [] w) as (calls & Hs & _ & _ & Hp).
    rewrite Hbefore in Hs, Hp. cbn in Hs, Hp.
    destruct (Hp _ eq_refl) as (news & -> & HF). by exists calls.
Qed.

Lemma detect_raises_off_table_witness :
  let imread := λ _ : string, Some tt in
  let d0 := Detection (0, 0, 1, 1)%Q (9 # 10) (0 # 1) in
  let d1 := Detection (2, 2, 3, 3)%Q (7 # 10) (8 # 1) in
  let model := λ _ : unit, [YoloResult [d0; d1]] in
  let w := World new_sheet 0 [] in
  let w1 := World [header; Row (VInt 1) (VStr "apple") (VInt 1) (VStr "0") (VInt 7)] 1 [] in
  detect_and_classify imread model (λ n, pretty n) "a.jpg" w = (Raise IndexError, w1)
  ∧ ∃ calls, w_sheet w1 = replay (λ n, pretty n) 0 calls new_sheet
             ∧ Forall2 record_of_call calls [Prediction "Apple" "Fresh" "0.90"].
Proof.
  intros imread d0 d1 model w w1.
  apply (detect_raises_off_table imread model (λ n, pretty n) "a.jpg" tt w
           [d0] d1 [] [Prediction "Apple" "Fresh" "0.90"] w1).
  - reflexivity.
  - reflexivity.
  - reflexivity.
  - reflexivity.
  - intros [_ Hidx]. vm_compute in Hidx. discriminate Hidx.
Defined.

(** X9: when no box passes the confidence test (or there is no box at all),
    the function returns the empty list and leaves the sheet, the clock and
    the error boxes as they were. *)
Theorem detect_nothing_confident {Image : Type} (imread : string → option Image)
    (model : Image → list yolo_result) clock image_path image w :
  imread image_path = Some image →
  Forall (λ d, (conf d < CONFIDENCE_THRESHOLD)%Q) (all_boxes (model image)) →
  detect_and_classify imread model clock image_path w = (Ok (Some []), w).
Proof.
  intros Himage Hlow. rewrite (detect_and_classify_all_boxes _ _ _ _ image) by done.
  enough (for_boxes clock [] (all_boxes (model image)) w = (Ok [], w)) as -> by done.
  induction Hlow as [|d ds Hd _ IH]; [reflexivity|].
  cbn [for_boxes]. unfold mbind, M_bind. rewrite for_box_label_run.
  apply float_lt_true in Hd. by rewrite Hd.
Qed.

Lemma detect_nothing_confident_witness :
  let imread := λ _ : string, Some tt in
  let model := λ _ : unit, [YoloResult [Detection (0, 0, 1, 1)%Q (3 # 10) (0 # 1)];
                            YoloResult []] in
  let w := World [header; Row (VInt 1) (VStr "onion") (VInt 2) (VStr "t0") (VInt 10)] 4 [] in
  detect_and_classify imread model (λ n, pretty n) "a.jpg" w = (Ok (Some []), w).
Proof.
  intros imread model w.
  apply (detect_nothing_confident imread model (λ n, pretty n) "a.jpg" tt w).
  - reflexivity.
  - repeat constructor.
Defined.

(** ** The detection interpreter and the ledger *)

Lemma sheet_after_ledger_ok product is_fresh now sheet :
  ledger_ok sheet → ledger_ok (sheet_after product is_fresh now sheet).
Proof.
  intros Hok.
  destruct (update_keeps_ledger_ok product is_fresh now sheet Hok) as (sheet' & Hup & Hok').
  unfold sheet_after. by rewrite Hup.
Qed.

Lemma for_results_ledger_ok clock results predictions w :
  ledger_ok (w_sheet w) →
  ledger_ok (w_sheet (for_results clock predictions results w).2).
Proof.
  intros Hok.
  destruct (for_results_effect clock results predictions w) as (calls & -> & _).
  apply (replay_preserves ledger_ok); [|done].
  intros. by apply sheet_after_ledger_ok.
Qed.

(** X10: whatever the image and the boxes, and whether the function returns
    or raises, a ledger (header row, one row per product, integer counts,
    rows numbered from 1) is a ledger again after the call. *)
Theorem detect_keeps_ledger_ok {Image : Type} (imread : string → option Image)
    (model : Image → list yolo_result) clock image_path w :
  ledger_ok (w_sheet w) →
  ledger_ok (w_sheet (detect_and_classify imread model clock image_path w).2).
Proof.
  intros Hok. unfold detect_and_classify.
  destruct (imread image_path) as [image|]; [|done].
  cbn zeta. unfold mbind, M_bind.
  pose proof (for_results_ledger_ok clock (model image) [] w Hok) as Hloop.
  by destruct (for_results clock [] (model image) w) as [[predictions|e] w1].
Qed.

Lemma detect_keeps_ledger_ok_witness :
  let imread := λ _ : string, Some tt in
  let model := λ _ : unit,
    [YoloResult [Detection (0, 0, 1, 1)%Q (9 # 10) (0 # 1);
                 Detection (2, 2, 3, 3)%Q (7 # 10) (8 # 1)]] in
  let w := World [header; Row (VInt 1) (VStr "onion") (VInt 2) (VStr "t0") (VInt 10);
                  Row (VInt 2) (VStr "apple") (VInt 0) (VStr "t0") (VStr "N/A")] 0 [] in
  ledger_ok (w_sheet (detect_and_classify imread model (λ n, pretty n) "a.jpg" w).2).
Proof.
  intros imread model w.
  apply (detect_keeps_ledger_ok imread model (λ n, pretty n) "a.jpg" w).
  exact ledger_ok_example.
Defined.

Lemma tally_sheet_after product other is_fresh now (sheet : worksheet) :
  sheet ≠ [] →
  counts_are_integers sheet →
  tally other (sheet_after product is_fresh now sheet) =
  tally other sheet
  + (if decide ((product, is_fresh) = (other, true)) then 1 else 0).
Proof.
  intros Hne Hint. destruct (decide (other = product)) as [->|Hother].
  - destruct (upsert_row_after product is_fresh now sheet Hne Hint)
      as (sheet' & i & r & Hup & Hfind & Hcount & _).
    unfold sheet_after. rewrite Hup. unfold tally at 1. rewrite Hfind, Hcount.
    destruct is_fresh.
    + by rewrite decide_True.
    + rewrite decide_False; [done|]. by intros [= ?].
  - unfold tally. rewrite find_row_other_product by done.
    rewrite decide_False; [lia|]. intros [= ? ?]. by apply Hother.
Qed.

Lemma for_boxes_tally clock product bs : ∀ predictions w preds' w',
  for_boxes clock predictions bs w = (Ok preds', w') →
  w_sheet w ≠ [] →
  counts_are_integers (w_sheet w) →
  tally product (w_sheet w') =
  tally product (w_sheet w)
  + Z.of_nat (length (filter (λ d, box_call d = Some (product, true)) bs)).
Proof.
  induction bs as [|d bs IH]; intros predictions w preds' w' Hrun Hne Hint.
  - injection Hrun as <- <-. cbn. lia.
  - cbn [for_boxes] in Hrun. unfold mbind, M_bind in Hrun.
    rewrite for_box_label_run in Hrun.
    destruct (float_lt (conf d) CONFIDENCE_THRESHOLD) eqn:Hconf.
    + rewrite filter_cons_False by (unfold box_call; by rewrite Hconf).
      by eapply IH.
    + destruct (box_label d) as [[p freshness]|e] eqn:Hlabel; [|discriminate].
      assert (box_call d = Some (p, bool_decide (freshness = "fresh"))) as Hcall
        by (unfold box_call; by rewrite Hconf, Hlabel).
      destruct (update_fresh_count p (bool_decide (freshness = "fresh"))
                  (clock (w_clock w)) (w_sheet w)) as [sheet'|e] eqn:Hup;
        [|discriminate].
      destruct (update_keeps_counts _ _ _ _ _ Hne Hint Hup) as [Hne' Hint'].
      rewrite (IH _ _ _ _ Hrun Hne' Hint'). cbn [w_sheet].
      pose proof (tally_sheet_after p product (bool_decide (freshness = "fresh"))
                    (clock (w_clock w)) (w_sheet w) Hne Hint) as Htally.
      unfold sheet_after in Htally. rewrite Hup in Htally. rewrite Htally.
      destruct (decide ((p, bool_decide (freshness = "fresh")) = (product, true)))
        as [Heq|Hneq].
      * rewrite filter_cons_True by (rewrite Hcall; congruence). cbn [length]. lia.
      * rewrite filter_cons_False by (rewrite Hcall; congruence). lia.
Qed.

(** X11: when the function returns on a sheet with its header and integer
    counts, the count of every product has grown by the number of boxes that
    passed the confidence test with the fresh label of that product: each
    box counts, also several of one product. *)
Theorem detect_counts_fresh_boxes {Image : Type} (imread : string → option Image)
    (model : Image → list yolo_result) clock image_path image w preds w' :
  imread image_path = Some image →
  detect_and_classify imread model clock image_path w = (Ok (Some preds), w') →
  w_sheet w ≠ [] →
  counts_are_integers (w_sheet w) →
  ∀ product,
    tally product (w_sheet w') =
    tally product (w_sheet w)
    + Z.of_nat (length (filter (λ d, box_call d = Some (product, true))
                               (all_boxes (model image)))).
Proof.
  intros Himage Hrun Hne Hint product.
  rewrite (detect_and_classify_all_boxes _ _ _ _ image) in Hrun by done.
  destruct (for_boxes clock [] (all_boxes (model image)) w) as [[preds0|e] w0] eqn:Hboxes;
    [|discriminate].
  injection Hrun as -> ->. by eapply for_boxes_tally.
Qed.

Lemma detect_counts_fresh_boxes_witness :
  let imread := λ _ : string, Some tt in
  let ds := [Detection (0, 0, 1, 1)%Q (9 # 10) (0 # 1);
             Detection (0, 0, 1, 1)%Q (8 # 10) (1 # 1);
             Detection (2, 2, 3, 3)%Q (7 # 10) (0 # 1);
             Detection (2, 2, 3, 3)%Q (2 # 10) (0 # 1)] in
  let model := λ _ : unit, [YoloResult ds] in
  let w := World [header; Row (VInt 1) (VStr "apple") (VInt 3) (VStr "t0") (VInt 7)] 0 [] in
  let w' := (detect_and_classify imread model (λ n, pretty n) "a.jpg" w).2 in
  tally "apple" (w_sheet w') = 3 + 2.
Proof.
  intros imread ds model w w'.
  apply (detect_counts_fresh_boxes imread model (λ n, pretty n) "a.jpg" tt w
           [Prediction "Apple" "Fresh" "0.90"; Prediction "Apple" "Stale" "0.80";
            Prediction "Apple" "Fresh" "0.70"] w' eq_refl eq_refl).
  - discriminate.
  - repeat constructor. by exists 3.
Defined.

(** ** Integers the workbook file keeps *)

Lemma cell_below_mono bound bound' v :
  bound ≤ bound' → cell_below bound v → cell_below bound' v.
Proof. destruct v; cbn; [done| |done]. lia. Qed.

Lemma integers_below_mono bound bound' sheet :
  bound ≤ bound' → integers_below bound sheet → integers_below bound' sheet.
Proof.
  intros Hle [Hcells Hlen]. split; [|lia].
  eapply Forall_impl; [exact Hcells|]. intros r Hr. cbn beta in *.
  eapply Forall_impl; [exact Hr|]. intros v. by apply cell_below_mono.
Qed.

Lemma lifespan_of_below bound product is_fresh :
  10 < bound → cell_below bound (lifespan_of product is_fresh).
Proof.
  intros Hbound. unfold lifespan_of, dict_get. destruct is_fresh; cbn; [|done].
  destruct (expected_life_span !! product) as [days|] eqn:Hdays; cbn; [|done].
  assert (map_Forall (λ _ days, 0 < days ≤ 10) expected_life_span) as Hall.
  { refine (bool_decide_unpack _ _). vm_compute. exact I. }
  specialize (Hall product days Hdays). cbn in Hall. lia.
Qed.

(** One call adds at most one to a count and at most one row. *)
Lemma sheet_after_integers_below bound product is_fresh now sheet :
  10 < bound →
  integers_below bound sheet →
  integers_below (bound + 1) (sheet_after product is_fresh now sheet).
Proof.
  intros Hbound Hbelow.
  pose proof (integers_below_mono bound (bound + 1) sheet ltac:(lia) Hbelow) as [Hcells Hlen].
  destruct Hbelow as [Hcells0 Hlen0].
  destruct (sheet_after_effect product is_fresh now sheet)
    as [i r e Hfind _ _ | i r count Hfind Hb | Hfind].
  - by split.
  - split; [|by rewrite length_insert].
    apply Forall_insert; [done|].
    apply find_row_lookup in Hfind as [Hi _].
    pose proof (Forall_lookup_1 _ _ _ _ Hcells0 Hi) as Hr. cbn beta in Hr.
    unfold row_cells in *. cbn [touched col_s_no col_product col_fresh_count
                                 col_last_detected col_life_span].
    repeat (apply Forall_cons in Hr as [? Hr]).
    repeat (apply Forall_cons; split); try done.
    + by apply (cell_below_mono bound); [lia|].
    + by apply (cell_below_mono bound); [lia|].
    + apply bumped_Ok in Hb as [->|(n & _ & Hn & ->)].
      * by apply (cell_below_mono bound); [lia|].
      * rewrite Hn in *. cbn in *. lia.
    + apply lifespan_of_below. lia.
  - split.
    + apply Forall_app. split; [done|]. apply Forall_singleton.
      unfold row_cells, new_row, max_row. cbn [col_s_no col_product col_fresh_count
                                               col_last_detected col_life_span].
      repeat (apply Forall_cons; split); try done.
      * cbn. lia.
      * cbn. destruct is_fresh; lia.
      * apply lifespan_of_below. lia.
    + rewrite length_app. cbn. lia.
Qed.

Lemma for_boxes_integers_below clock bs : ∀ bound predictions w,
  10 < bound →
  integers_below bound (w_sheet w) →
  integers_below (bound + Z.of_nat (length bs))
                 (w_sheet (for_boxes clock predictions bs w).2).
Proof.
  induction bs as [|d bs IH]; intros bound predictions w Hbound Hbelow.
  - cbn. by apply (integers_below_mono bound); [lia|].
  - cbn [for_boxes length]. unfold mbind, M_bind.
    destruct (for_box_cases clock predictions d w)
      as [-> | [[e ->] | (product & freshness & sheet' & Hup & ->)]].
    + apply (integers_below_mono (bound + Z.of_nat (length bs))); [lia|].
      by apply IH.
    + cbn. by apply (integers_below_mono bound); [lia|].
    + cbn zeta in Hup.
      replace (bound + Z.of_nat (S (length bs)))
        with (bound + 1 + Z.of_nat (length bs)) by lia.
      apply IH; [lia|]. cbn [w_sheet].
      pose proof (sheet_after_integers_below bound product
                    (bool_decide (py_capitalize freshness = "Fresh"))
                    (clock (w_clock w)) (w_sheet w) Hbound Hbelow) as Hstep.
      unfold sheet_after in Hstep. by rewrite Hup in Hstep.
Qed.

Lemma load_sheet_below bound file :
  10 < bound → file_below bound file → integers_below bound (load_sheet file).
Proof.
  intros Hbound Hfile. destruct file as [sheet|]; [done|].
  split; [|cbn; lia]. by repeat constructor.
Qed.

(** One run of the script leaves in the workbook file integers that are
    larger by at most the number of boxes of the run. *)
Lemma script_file_below {Image : Type} (decode : string → option Image)
    (model : Image → list yolo_result) clock file temp_files ticks uploaded_file
    temp_name bound :
  10 < bound →
  file_below bound file →
  file_below
    (bound + Z.of_nat (boxes_of_run decode model (uploaded_file, temp_name)))
    (rs_workbook_file
       (script decode model clock file temp_files ticks uploaded_file temp_name).2).
Proof.
  intros Hbound Hfile.
  assert (∀ more, 0 ≤ more → file_below (bound + more) file) as Hsame.
  { intros more Hmore. destruct file as [sheet|]; [|done].
    by apply (integers_below_mono bound); [lia|]. }
  unfold script, main, boxes_of_run. cbn beta iota zeta.
  destruct uploaded_file as [bytes|]; [|apply Hsame; cbn; lia].
  cbn [rs_world rs_workbook_file rs_temp_files rs_page st_show fst].
  set (imread := imread_temp decode (<[temp_name:=bytes]> temp_files)).
  set (w := World (load_sheet file) ticks []).
  assert (imread temp_name = decode bytes) as Himage.
  { unfold imread, imread_temp. by rewrite lookup_insert_eq. }
  destruct (decode bytes) as [image|] eqn:Hdecode.
  - rewrite (detect_and_classify_all_boxes imread model clock temp_name image w Himage).
    pose proof (for_boxes_integers_below clock (all_boxes (model image)) bound [] w
                  Hbound (load_sheet_below bound file Hbound Hfile)) as Hloop.
    destruct (for_boxes clock [] (all_boxes (model image)) w) as [[predictions|e] w'];
      cbn [fst snd] in *.
    + destruct predictions as [|pred preds]; cbn; [apply Hsame; lia|done].
    + apply Hsame. lia.
  - unfold detect_and_classify. rewrite Himage. cbn. apply Hsame. lia.
Qed.

(** ** The script: what reaches the workbook file *)

(** On any path, the sheet after [detect_and_classify] is the sheet before
    with the ledger calls of the run, one for each record when it returns a
    list. *)
Lemma detect_effect {Image : Type} (imread : string → option Image)
    (model : Image → list yolo_result) clock image_path w :
  ∃ calls : list (string * bool),
    let res := detect_and_classify imread model clock image_path w in
    w_sheet res.2 = replay clock (w_clock w) calls (w_sheet w)
    ∧ ∀ preds, res.1 = Ok (Some preds) → Forall2 record_of_call calls preds.
Proof.
  unfold detect_and_classify. destruct (imread image_path) as [image|].
  - cbn zeta. unfold mbind, M_bind.
    destruct (for_results_effect clock (model image) [] w) as (calls & Hs & _ & _ & Hp).
    exists calls.
    destruct (for_results clock [] (model image) w) as [[predictions|e] w1]; cbn in *.
    + split; [done|]. intros preds [= <-].
      destruct (Hp _ eq_refl) as (news & -> & HF). done.
    + by split.
  - exists []. by split.
Qed.

(** X12: a run of the script with an upload writes the whole pass to the
    workbook file or nothing. When it raises, the file is as it was. When it
    returns, either the page ends with the warning and the file is as it
    was, or the page has the table of a list of records that is not empty
    and the sheet passed to [workbook.save] is the loaded sheet with the
    ledger calls of exactly those records. The integers of the loaded sheet
    are small enough for those of the saved one to be below 2^53 in size,
    so that the file holds the saved sheet as it is. *)
Theorem script_saves_whole_pass_or_nothing {Image : Type}
    (decode : string → option Image) (model : Image → list yolo_result) clock
    file temp_files ticks bytes temp_name bound :
  10 < bound →
  file_below bound file →
  bound + Z.of_nat (boxes_of_run decode model (Some bytes, temp_name)) ≤ 2 ^ 53 →
  let res := script decode model clock file temp_files ticks (Some bytes) temp_name in
  (∀ e, res.1 = Raise e → rs_workbook_file res.2 = file)
  ∧ (res.1 = Ok tt →
       (rs_workbook_file res.2 = file
        ∧ last (rs_page res.2) =
            Some (StWarning "No objects were detected in the image. Please try again."))
       ∨ ∃ preds calls,
           preds ≠ []
           ∧ StTable preds ∈ rs_page res.2
           ∧ Forall2 record_of_call calls preds
           ∧ rs_workbook_file res.2 = Some (replay clock ticks calls (load_sheet file))
           ∧ integers_below (2 ^ 53) (replay clock ticks calls (load_sheet file))).
Proof.
  intros Hbound Hfile Htotal res. subst res.
  pose proof (script_file_below decode model clock file temp_files ticks (Some bytes)
                temp_name bound Hbound Hfile) as Hbelow.
  revert Hbelow. unfold script, main. cbn beta iota zeta.
  cbn [rs_world rs_workbook_file rs_temp_files rs_page st_show].
  set (imread := imread_temp decode (<[temp_name:=bytes]> temp_files)).
  set (w := World (load_sheet file) ticks []).
  destruct (detect_effect imread model clock temp_name w) as (calls & Hs & Hp).
  cbn zeta in Hs, Hp.
  destruct (detect_and_classify imread model clock temp_name w)
    as [[predictions|e] w'] eqn:Hrun; cbn [fst snd] in *.
  - intros Hbelow. split; [discriminate|]. intros _.
    destruct predictions as [[|pred preds]|]; cbn in *.
    + left. by split.
    + right. exists (pred :: preds), calls. split; [done|].
      split; [set_solver|]. split; [by apply Hp|]. rewrite <- Hs. split; [done|].
      by eapply integers_below_mono.
    + left. by split.
  - intros _. split; [done|discriminate].
Qed.

Lemma script_saves_whole_pass_or_nothing_witness :
  let decode := λ _ : string, Some tt in
  let model := λ _ : unit, [YoloResult [Detection (0, 0, 1, 1)%Q (9 # 10) (0 # 1)]] in
  let clock := λ n : nat, pretty n in
  let res := script decode model clock None ∅ 0 (Some "image bytes") "/tmp/tmp1.jpg" in
  ∃ preds calls,
    preds ≠ []
    ∧ StTable preds ∈ rs_page res.2
    ∧ Forall2 record_of_call calls preds
    ∧ rs_workbook_file res.2 = Some (replay clock 0 calls (load_sheet None))
    ∧ integers_below (2 ^ 53) (replay clock 0 calls (load_sheet None)).
Proof.
  intros decode model clock res.
  destruct (script_saves_whole_pass_or_nothing decode model clock None ∅ 0
              "image bytes" "/tmp/tmp1.jpg" 11) as [_ Hreturn].
  - reflexivity.
  - exact I.
  - vm_compute. discriminate.
  - destruct (Hreturn eq_refl) as [[Hfile _]|Hsaved].
    + vm_compute in Hfile. discriminate Hfile.
    + exact Hsaved.
Defined.






(** X14: [main] with an upload, when the name of the temporary file is a
    new one: when it returns, the temporary files are those there were, the
    image file is removed; when it raises, the image file is left behind
    with the bytes of the upload. *)
Theorem main_temporary_file {Image : Type} (decode : string → option Image)
    (model : Image → list yolo_result) clock bytes temp_name a :
  rs_temp_files a !! temp_name = None →
  let res := main decode model clock (Some bytes) temp_name a in
  (res.1 = Ok tt → rs_temp_files res.2 = rs_temp_files a)
  ∧ (∀ e, res.1 = Raise e →
       rs_temp_files res.2 = <[temp_name := bytes]> (rs_temp_files a)).
Proof.
  intros Hnew res. subst res. unfold main. cbn beta iota zeta.
  cbn [rs_world rs_workbook_file rs_temp_files rs_page st_show].
  destruct (detect_and_classify _ model clock temp_name (rs_world a))
    as [[predictions|e] w']; cbn [fst snd].
  - split; [|discriminate]. intros _.
    destruct (truthy predictions); cbn; by rewrite delete_insert_eq, delete_id.
  - split; [discriminate|]. by intros _ _.
Qed.

Lemma main_temporary_file_witness :
  let decode := λ _ : string, Some tt in
  let good := λ _ : unit, [YoloResult [Detection (0, 0, 1, 1)%Q (9 # 10) (0 # 1)]] in
  let bad := λ _ : unit, [YoloResult [Detection (0, 0, 1, 1)%Q (9 # 10) (8 # 1)]] in
  let a := RunState (World new_sheet 0 []) None ∅ [] in
  rs_temp_files (main decode good (λ n, pretty n) (Some "image bytes") "/tmp/tmp1.jpg" a).2 = ∅
  ∧ rs_temp_files (main decode bad (λ n, pretty n) (Some "image bytes") "/tmp/tmp1.jpg" a).2
    = {[ "/tmp/tmp1.jpg" := "image bytes" ]}.
Proof.
  intros decode good bad a. split.
  - apply (proj1 (main_temporary_file decode good (λ n, pretty n) "image bytes"
                    "/tmp/tmp1.jpg" a eq_refl)).
    reflexivity.
  - apply (proj2 (main_temporary_file decode bad (λ n, pretty n) "image bytes"
                    "/tmp/tmp1.jpg" a eq_refl) IndexError).
    reflexivity.
Defined.

(** X15: an upload that cannot be decoded: the run returns, the page shows
    the error box and then also the warning that no objects were detected,
    the workbook file is not written, and the temporary file is removed. *)
Theorem script_undecodable_upload {Image : Type} (decode : string → option Image)
    (model : Image → list yolo_result) clock file temp_files ticks bytes temp_name :
  decode bytes = None →
  script decode model clock file temp_files ticks (Some bytes) temp_name =
  (Ok tt,
   RunState (World (load_sheet file) ticks ["Error: Image not found."])
            file
            (delete temp_name (<[temp_name := bytes]> temp_files))
            [StTitle "Fresh Product Detection with YOLOv8";
             StWrite "Upload an image, and this app will detect fresh and stale products.";
             StWrite "Processing image...";
             StWarning "No objects were detected in the image. Please try again."]).
Proof.
  intros Hdecode. unfold script, main. cbn beta iota zeta.
  cbn [rs_world rs_workbook_file rs_temp_files rs_page st_show].
  unfold detect_and_classify, imread_temp.
  rewrite lookup_insert_eq. cbn [mbind option_bind]. rewrite Hdecode. reflexivity.
Qed.

Lemma script_undecodable_upload_witness :
  let decode := λ _ : string, @None unit in
  let model := λ _ : unit, [YoloResult [Detection (0, 0, 1, 1)%Q (9 # 10) (0 # 1)]] in
  rs_workbook_file
    (script decode model (λ n, pretty n) None ∅ 0 (Some "text") "/tmp/tmp1.jpg").2 = None.
Proof.
  intros decode model.
  by rewrite (script_undecodable_upload decode model (λ n, pretty n) None ∅ 0
                "text" "/tmp/tmp1.jpg" eq_refl).
Defined.
